(** * EuroDreams: the chaotic-seed pipeline of [EuroDreams.py]

    The development follows the Python module function by function:
    [simulate_double_pendulum], [get_chaotic_value_from_pendulum],
    [generate_eurodreams_numbers], [create_combined_seed] and the draw loop of
    the main program.

    Python floats and numpy's [float64] are IEEE 754 binary64 numbers; they are
    modelled by the executable specification of the Standard Library
    ([SpecFloat], precision 53, [emax] 1024).  Python integers are unbounded
    and modelled by [Z].  A Python exception is a value of [exception], and a
    call that may raise returns a [result].

    The module calls into three libraries whose code is not part of the
    repository.  [numpy.arange], [random.sample], [random.randint], [sorted],
    list indexing and [int()] are modelled from their implementation; the
    transcendental functions of libm, [scipy.integrate.odeint], the builtin
    [hash] and the core generator of [random] are parameters of the
    development, constrained only by the part of their contract that the
    program relies on. *)

From Stdlib Require Import ZArith Lia Bool List.
From Stdlib Require Import Strings.Byte.
From Stdlib Require Import Floats.SpecFloat.
From stdpp Require Import base list sorting strings gmap.

Local Open Scope Z_scope.

(** ** Exceptions and results *)

Inductive exception : Type :=
| ValueError
| IndexError
| ZeroDivisionError
| OverflowError.

Inductive result (A : Type) : Type :=
| Ok (a : A)
| Raise (e : exception).

Arguments Ok {A} a.
Arguments Raise {A} e.

#[global] Instance result_ret : MRet result := @Ok.

#[global] Instance result_bind : MBind result :=
  fun A B f m => match m with Ok a => f a | Raise e => Raise e end.

(** ** Python sequences *)

(** [l[i]] for a list or a one-dimensional array: a negative index counts from
    the end, an index out of range raises [IndexError]. *)
Definition py_getitem {A} (l : list A) (i : Z) : result A :=
  let n := Z.of_nat (length l) in
  let k := if i <? 0 then i + n else i in
  if (0 <=? k) && (k <? n)
  then match l !! Z.to_nat k with Some x => Ok x | None => Raise IndexError end
  else Raise IndexError.

(** [l[i] = x], same index rules. *)
Definition py_setitem {A} (l : list A) (i : Z) (x : A) : result (list A) :=
  let n := Z.of_nat (length l) in
  let k := if i <? 0 then i + n else i in
  if (0 <=? k) && (k <? n) then Ok (<[Z.to_nat k := x]> l) else Raise IndexError.

(** [range(a, b)] as a list. *)
Definition py_range (a b : Z) : list Z :=
  (fun i : nat => a + Z.of_nat i) <$> seq 0 (Z.to_nat (b - a)).

(** [sorted] on integers.  CPython sorts with a merge sort; on integers the
    ascending rearrangement of a list is unique (see [sorted_unique]), so the
    choice of algorithm does not show in the result. *)
Definition sorted (l : list Z) : list Z := merge_sort Z.le l.

(** ** Binary64 arithmetic *)

Module Float64.

Definition float : Type := spec_float.

Definition prec : Z := 53.
Definition emax : Z := 1024.

Definition add : float -> float -> float := SFadd prec emax.
Definition sub : float -> float -> float := SFsub prec emax.
Definition mul : float -> float -> float := SFmul prec emax.
Definition div : float -> float -> float := SFdiv prec emax.
Definition abs : float -> float := SFabs.
Definition eqb : float -> float -> bool := SFeqb.
Definition ltb : float -> float -> bool := SFltb.
Definition leb : float -> float -> bool := SFleb.

(** Conversion of an integer, rounding to nearest even when it does not
    fit in 53 bits (C's [(double)i], Python's [float(i)]). *)
Definition of_Z (z : Z) : float := binary_normalize prec emax z 0 false.

(** The decimal literal whose value is [p / q], for [p] and [q] below
    [2^53]: the correctly rounded quotient of two exact integers is the
    binary64 number nearest to the decimal. *)
Definition decimal (p q : Z) : float := div (of_Z p) (of_Z q).

Definition zero : float := S754_zero false.

Definition is_zero (x : float) : bool := eqb x zero.

Definition signbit (x : float) : bool :=
  match x with
  | S754_zero s | S754_infinity s | S754_finite s _ _ => s
  | S754_nan => false
  end.

(** Integer parts of the rational [n * 2^e]. *)
Definition floor_scaled (n e : Z) : Z :=
  if 0 <=? e then n * 2 ^ e else n / 2 ^ (- e).

Definition trunc_scaled (n e : Z) : Z :=
  if 0 <=? e then n * 2 ^ e else n ÷ 2 ^ (- e).

Definition signed_mantissa (s : bool) (m : positive) : Z :=
  if s then Zneg m else Zpos m.

(** Largest integer below or equal to [x]; undefined on infinities and NaN. *)
Definition floor (x : float) : option Z :=
  match x with
  | S754_zero _ => Some 0
  | S754_finite s m e => Some (floor_scaled (signed_mantissa s m) e)
  | S754_infinity _ | S754_nan => None
  end.

(** Smallest integer above or equal to [x]. *)
Definition ceil (x : float) : option Z :=
  match x with
  | S754_zero _ => Some 0
  | S754_finite s m e => Some (- floor_scaled (- signed_mantissa s m) e)
  | S754_infinity _ | S754_nan => None
  end.

(** Rounding toward zero. *)
Definition trunc (x : float) : option Z :=
  match x with
  | S754_zero _ => Some 0
  | S754_finite s m e => Some (trunc_scaled (signed_mantissa s m) e)
  | S754_infinity _ | S754_nan => None
  end.

End Float64.

Import Float64.

Declare Scope float_scope.
Delimit Scope float_scope with F.
Bind Scope float_scope with float.
Infix "+" := add : float_scope.
Infix "-" := sub : float_scope.
Infix "*" := mul : float_scope.
Infix "/" := div : float_scope.

(** [int(x)] for a float [x]: truncation toward zero; [int(nan)] raises
    [ValueError] and [int(inf)] raises [OverflowError]. *)
Definition py_int (x : float) : result Z :=
  match x with
  | S754_nan => Raise ValueError
  | S754_infinity _ => Raise OverflowError
  | _ => match trunc x with Some z => Ok z | None => Raise ValueError end
  end.

(** [x] has the sign bit [s], or is a NaN. *)
Definition sign_or_nan (s : bool) (x : float) : Prop :=
  match x with
  | S754_nan => True
  | S754_zero s' | S754_infinity s' | S754_finite s' _ _ => s' = s
  end.

(** [0 < x] as Python evaluates it. *)
Definition gt_zero (x : float) : Prop := ltb zero x = true.

(** ** [numpy.arange] on floats *)

(** The bounds of [npy_intp] on a 64-bit platform. *)
Definition NPY_MIN_INTP : Z := - 2 ^ 63.
Definition NPY_MAX_INTP : Z := 2 ^ 63 - 1.

(** The C conversion [(npy_intp)x] of a double that holds the integer [n].
    Within the range of [npy_intp] it is exact; above it the conversion of
    x86-64 gives the smallest [npy_intp]. *)
Definition double_to_intp (n : Z) : Z :=
  if n <=? NPY_MAX_INTP then n else NPY_MIN_INTP.

(** [_arange_safe_ceil_to_intp]: the ceiling of [value] converted to an
    [npy_intp].  A NaN is refused with [ValueError].  The range test is made
    on doubles, against [(double)NPY_MIN_INTP = -2^63] and
    [(double)NPY_MAX_INTP], which rounds to [2^63]: a ceiling beyond these is
    refused with [OverflowError], and the ceiling [2^63] itself passes the
    test and is converted. *)
Definition arange_safe_ceil_to_intp (value : float) : result Z :=
  match value with
  | S754_nan => Raise ValueError
  | _ =>
      match ceil value with
      | Some n =>
          if (NPY_MIN_INTP <=? n) && (n <=? NPY_MAX_INTP + 1) then Ok (double_to_intp n)
          else Raise OverflowError
      | None => Raise OverflowError
      end
  end.

(** [_calc_length]: the number of elements, [ceil((stop - start) / step)].
    The quotient is Python's true division of two floats, which raises
    [ZeroDivisionError] on a zero divisor; a quotient that underflowed to zero
    counts for one element when it is positive and for none otherwise. *)
Definition arange_calc_length (start stop step : float) : result Z :=
  let next := (stop - start)%F in
  if is_zero step then Raise ZeroDivisionError
  else
    let value := (next / step)%F in
    if is_zero value && negb (is_zero next)
    then Ok (if signbit value then 0 else 1)
    else arange_safe_ceil_to_intp value.

(** The buffer of [length] elements: [start], then [next = start + step], then
    the [fill] loop of the [double] type, which writes [start + i * delta] for
    [delta = next - start] and [i] from 2 on. *)
Definition arange_fill (start next : float) (length : nat) : list float :=
  let delta := (next - start)%F in
  take length
    (start :: next ::
       ((fun i : nat => (start + of_Z (Z.of_nat i) * delta)%F)
          <$> seq 2 (length - 2))).

(** [np.arange(start, stop, step)] on Python floats.  An [OverflowError] of
    the length computation is reported as [ValueError]; the other exceptions
    pass through.  A length that is not positive gives the empty array.  The
    creation of the array of [float64] refuses with [ValueError] a length
    whose size in bytes, 8 per element, is beyond [NPY_MAX_INTP].  The model
    has memory for every array that passes this test: the [MemoryError] of
    an allocation that the machine cannot serve is outside of it. *)
Definition arange_error (e : exception) : exception :=
  match e with
  | OverflowError => ValueError
  | _ => e
  end.

Definition float64_itemsize : Z := 8.

Definition np_arange (start stop step : float) : result (list float) :=
  match arange_calc_length start stop step with
  | Raise e => Raise (arange_error e)
  | Ok length =>
      if length <=? 0 then Ok []
      else if NPY_MAX_INTP <? length * float64_itemsize then Raise ValueError
      else Ok (arange_fill start (start + step)%F (Z.to_nat length))
  end.

(** [np.diff(t)] and the test that [odeint] makes on its time grid before it
    integrates: the differences are all [>= 0] or all [<= 0]. *)
Definition np_diff (t : list float) : list float :=
  zip_with (fun a b => (b - a)%F) t (tail t).

Definition monotonic (t : list float) : bool :=
  forallb (fun d => leb zero d) (np_diff t) || forallb (fun d => leb d zero) (np_diff t).

(** The times of a grid of [len] samples that starts at zero:
    [0, dt, fl(2 dt), fl(3 dt), ...], each product rounded once. *)
Definition grid_times (dt : float) (len : nat) : list float :=
  take len
    (zero :: dt :: ((fun i : nat => (of_Z (Z.of_nat i) * dt)%F) <$> seq 2 (len - 2))).

(** ** The pendulum *)

(** [g = 9.81] *)
Definition g : float := decimal 981 100.

(** [np.pi], the binary64 number nearest to pi. *)
Definition np_pi : float := decimal 3141592653589793 1000000000000000.

Section Pendulum.

(** libm: [np.sin], [np.cos], and [**] on [float64] scalars. *)
Variable np_sin np_cos : float -> float.
Variable np_power : float -> float -> float.

(** [scipy.integrate.odeint func y0 t]: the rows of the solution array, one per
    element of [t].  [func] is the right-hand side with the extra arguments
    already supplied.  The call works on copies of [y0] and of [t] and starts
    the solver afresh: its result is a function of its arguments, and it
    writes neither of them. *)
Variable odeint :
  (list float -> float -> result (list float)) ->
  list float -> list float -> result (list (list float)).

(** The inner function [deriv].  Unpacking [y] into four names raises
    [ValueError] unless [y] has four components.  All operands are [float64]
    scalars, so a division by zero yields an infinity or a NaN and does not
    raise. *)
Definition deriv (y : list float) (t : float) (L1 L2 m1 m2 : float)
  : result (list float) :=
  match y with
  | [theta1; z1; theta2; z2] =>
      let c := np_cos (theta1 - theta2)%F in
      let s := np_sin (theta1 - theta2)%F in
      let two := of_Z 2 in
      let theta1_dot := z1 in
      let z1_dot :=
        ((m2 * g * np_sin theta2 * c
          - m2 * s * (L1 * np_power z1 two * c + L2 * np_power z2 two)
          - (m1 + m2) * g * np_sin theta1) / L1 / (m1 + m2 * np_power s two))%F in
      let theta2_dot := z2 in
      let z2_dot :=
        (((m1 + m2) * (L1 * np_power z1 two * s - g * np_sin theta2
                       + g * np_sin theta1 * c)
          + m2 * L2 * np_power z2 two * s * c) / L2 / (m1 + m2 * np_power s two))%F in
      Ok [theta1_dot; z1_dot; theta2_dot; z2_dot]
  | _ => Raise ValueError
  end.

(** [sol[:, k]] on the rows of a two-dimensional array. *)
Definition column (sol : list (list float)) (k : Z) : result (list float) :=
  mapM (fun row => py_getitem row k) sol.

(** The numeric arguments are floats; the integers that the program passes
    (the duration 10, the start 0 of the grid) convert exactly.  No argument
    is tested before use. *)
Definition simulate_double_pendulum (L1 L2 m1 m2 tmax dt : float) (y0 : list float)
  : result (list float * list float) :=
  t ← np_arange (of_Z 0) tmax dt;
  sol ← odeint (fun y s => deriv y s L1 L2 m1 m2) y0 t;
  theta1 ← column sol 0;
  theta2 ← column sol 2;
  Ok (theta1, theta2).

Definition get_chaotic_value_from_pendulum (L1 L2 m1 m2 tmax dt : float) (y0 : list float)
  : result float :=
  '(_, theta2) ← simulate_double_pendulum L1 L2 m1 m2 tmax dt y0;
  py_getitem theta2 (-1).

(** The default arguments of [get_chaotic_value_from_pendulum].  The default
    list [y0] is one object shared by all calls; nothing in the module writes
    to it and [odeint] works on a copy, so every call reads these values. *)
Definition default_L1 : float := of_Z 1.
Definition default_L2 : float := of_Z 1.
Definition default_m1 : float := of_Z 1.
Definition default_m2 : float := of_Z 1.
Definition default_tmax : float := of_Z 10.
Definition default_dt : float := decimal 1 100.
Definition default_y0 : list float :=
  [(np_pi - decimal 1 10)%F; zero; (np_pi - decimal 2 10)%F; zero].

(** The call [get_chaotic_value_from_pendulum()]. *)
Definition get_chaotic_value_from_pendulum_default : result float :=
  get_chaotic_value_from_pendulum
    default_L1 default_L2 default_m1 default_m2 default_tmax default_dt default_y0.

(** The builtin [hash] on [bytes]. *)
Variable hash : list byte -> Z.

(** The sum is a sum of Python integers; [1e6] is the float 1000000. *)
Definition create_combined_seed (current_time_seed : Z) (weather_seed : list byte)
  : result Z :=
  chaotic_value ← get_chaotic_value_from_pendulum_default;
  chaotic_term ← py_int (abs chaotic_value * of_Z 1000000)%F;
  Ok (hash weather_seed + current_time_seed + chaotic_term).

(** The seeds of the main program: 47 trial draws with time seed [base + i],
    then the official draw with time seed [base + 47]; [base] is the integer
    read from the clock once, before the loop. *)
Definition trial_seeds (base : Z) (weather_seed : list byte) : result (list Z) :=
  mapM (fun i => create_combined_seed (base + i) weather_seed) (py_range 0 47).

Definition official_seed (base : Z) (weather_seed : list byte) : result Z :=
  create_combined_seed (base + 47) weather_seed.

Definition draw_seeds (base : Z) (weather_seed : list byte) : result (list Z) :=
  trials ← trial_seeds base weather_seed;
  official ← official_seed base weather_seed;
  Ok (trials ++ [official]).

End Pendulum.

(** ** The sampler *)

(** The smallest [e] with [n <= 4 ^ e], the value of [_ceil(_log(n, 4))]. *)
Definition ceil_log4 (n : Z) : Z := (Z.log2_up n + 1) / 2.

(** The threshold of [random.sample] between its two selection loops. *)
Definition sample_setsize (k : Z) : Z :=
  21 + (if 5 <? k then 4 ^ ceil_log4 (k * 3) else 0).

Section Random.

(** The state of the hidden generator shared by the functions of module
    [random], its reseeding from an integer, and [_randbelow]. *)
Variable state : Type.
Variable seed_int : Z -> state.
Variable randbelow : Z -> state -> Z * state.

(** [random.seed(a)] discards the current state. *)
Definition random_seed (a : Z) (st : state) : state := seed_int a.

(** The selection loop of [random.sample] over a copy [pool] of the
    population: at step [i] an index [j] below [n - i] is drawn, [pool[j]]
    is selected and the last candidate [pool[n - i - 1]] moves into the
    vacancy.  The result list is filled from the left, which is written here
    as an append. *)
Fixpoint sample_pool (todo : nat) (n i : Z) (pool selected : list Z) (st : state)
  : result (list Z * state) :=
  match todo with
  | O => Ok (selected, st)
  | S todo' =>
      let '(j, st') := randbelow (n - i) st in
      x ← py_getitem pool j;
      y ← py_getitem pool (n - i - 1);
      pool' ← py_setitem pool j y;
      sample_pool todo' n (i + 1) pool' (selected ++ [x]) st'
  end.

(** [random.sample(population, k)].  CPython selects from a pool when
    [n <= setsize] and by rejection from a set of chosen indices otherwise;
    the pool loop is the one modelled, it is the one that runs for the call
    of the program (see [sample_branch]). *)
Definition random_sample (population : list Z) (k : Z) (st : state)
  : result (list Z * state) :=
  let n := Z.of_nat (length population) in
  if negb ((0 <=? k) && (k <=? n)) then Raise ValueError
  else sample_pool (Z.to_nat k) n 0 population [] st.

(** [random.randint(a, b)], that is [randrange(a, b + 1)]. *)
Definition random_randint (a b : Z) (st : state) : result (Z * state) :=
  let width := b + 1 - a in
  if 0 <? width
  then let '(r, st') := randbelow width st in Ok (a + r, st')
  else Raise ValueError.

(** The function works on the generator of module [random]: it takes the
    state it finds and leaves the state after the two draws.  The bonus number
    is returned in a list of its own. *)
Definition generate_eurodreams_numbers (seed : Z) (st : state)
  : result ((list Z * list Z) * state) :=
  let st := random_seed seed st in
  '(sample, st) ← random_sample (py_range 1 41) 6 st;
  let main_numbers := sorted sample in
  '(bonus_number, st) ← random_randint 1 5 st;
  Ok ((main_numbers, [bonus_number]), st).

(** Successive calls of [_randbelow], one per bound, threading the state. *)
Fixpoint randbelow_seq (bounds : list Z) (st : state) : list Z * state :=
  match bounds with
  | [] => ([], st)
  | n :: bounds' =>
      let '(j, st1) := randbelow n st in
      let '(js, st2) := randbelow_seq bounds' st1 in
      (j :: js, st2)
  end.

End Random.

Arguments random_seed {state} seed_int a st.
Arguments sample_pool {state} randbelow todo n i pool selected st.
Arguments random_sample {state} randbelow population k st.
Arguments random_randint {state} randbelow a b st.
Arguments generate_eurodreams_numbers {state} seed_int randbelow seed st.
Arguments randbelow_seq {state} randbelow bounds st.

(** The bounds of the successive draws of the selection loop: [m], [m - 1],
    ... *)
Fixpoint sample_bounds (m : Z) (todo : nat) : list Z :=
  match todo with
  | O => []
  | S todo' => m :: sample_bounds (m - 1) todo'
  end.

(** The contract of [_randbelow]: an integer in [[0, n)]. *)
Definition randbelow_range {state} (randbelow : Z -> state -> Z * state) : Prop :=
  forall n st, 0 < n -> 0 <= fst (randbelow n st) < n.

(** The contract of [odeint] that the program uses.  An array that the call
    returns has the shape [(len(t), len(y0))].  The call returns on a
    non-empty time grid that passes the test [monotonic], for a non-empty
    initial state and a right-hand side that returns a vector of the dimension
    of [y0]: numerical trouble inside the solver is reported by a warning,
    not by an exception. *)
Definition odeint_shape
  (odeint : (list float -> float -> result (list float)) ->
            list float -> list float -> result (list (list float))) : Prop :=
  forall func y0 t sol,
    odeint func y0 t = Ok sol ->
    length sol = length t /\ Forall (fun row => length row = length y0) sol.

Definition odeint_returns
  (odeint : (list float -> float -> result (list float)) ->
            list float -> list float -> result (list (list float))) : Prop :=
  forall func y0 t,
    t <> [] -> monotonic t = true -> y0 <> [] ->
    (forall y s, length y = length y0 ->
       exists d, func y s = Ok d /\ length d = length y0) ->
    exists sol, odeint func y0 t = Ok sol.

Definition odeint_contract
  (odeint : (list float -> float -> result (list float)) ->
            list float -> list float -> result (list (list float))) : Prop :=
  odeint_shape odeint /\ odeint_returns odeint.

(** ** An executable instance of the library parameters

    A fixed-step Euler integrator, polynomial sine and cosine, the FNV-1a
    hash and a linear congruential generator.  They stand for scipy, libm,
    [hash] and the generator of [random] where the model is run on concrete
    inputs; [Reference.euler_odeint] and [Reference.lcg_randbelow] meet the
    contracts above. *)

Module Reference.

Definition two_pi : float := (of_Z 2 * np_pi)%F.

(** [x] brought back to [[-pi, pi]]. *)
Definition reduce (x : float) : float :=
  match floor (x / two_pi + decimal 1 2)%F with
  | Some k => (x - of_Z k * two_pi)%F
  | None => S754_nan
  end.

Definition poly_sin (x : float) : float :=
  let r := reduce x in
  let r2 := (r * r)%F in
  let one := of_Z 1 in
  (r * (one - r2 / of_Z 6 * (one - r2 / of_Z 20 * (one - r2 / of_Z 42
        * (one - r2 / of_Z 72 * (one - r2 / of_Z 110))))))%F.

Definition poly_cos (x : float) : float :=
  let r := reduce x in
  let r2 := (r * r)%F in
  let one := of_Z 1 in
  (one - r2 / of_Z 2 * (one - r2 / of_Z 12 * (one - r2 / of_Z 30
        * (one - r2 / of_Z 56 * (one - r2 / of_Z 90)))))%F.

(** Only squares are taken by the program. *)
Definition square_power (x p : float) : float :=
  if eqb p (of_Z 2) then (x * x)%F else S754_nan.

(** A derivative of another dimension than the state is refused. *)
Fixpoint euler_steps (func : list float -> float -> result (list float))
  (y : list float) (tprev : float) (ts : list float) : result (list (list float)) :=
  match ts with
  | [] => Ok []
  | tnext :: ts' =>
      d ← func y tprev;
      if negb (length d =? length y)%nat then Raise ValueError
      else
        let h := (tnext - tprev)%F in
        let y' := zip_with (fun yi di => (yi + h * di)%F) y d in
        rows ← euler_steps func y' tnext ts';
        Ok (y' :: rows)
  end.

(** A grid that is not monotonic is refused; the empty grid gives the array
    without a row. *)
Definition euler_odeint (func : list float -> float -> result (list float))
  (y0 : list float) (t : list float) : result (list (list float)) :=
  if negb (monotonic t) then Raise ValueError
  else
    match t with
    | [] => Ok []
    | t0 :: ts => rows ← euler_steps func y0 t0 ts; Ok (y0 :: rows)
    end.

Definition fnv1a (w : list byte) : Z :=
  fold_left
    (fun h b => (Z.lxor h (Z.of_N (Byte.to_N b)) * 1099511628211) mod 2 ^ 64)
    w 14695981039346656037.

Definition lcg_seed (a : Z) : Z := Z.abs a mod 2 ^ 31.

Definition lcg_randbelow (n st : Z) : Z * Z :=
  let st' := (1103515245 * st + 12345) mod 2 ^ 31 in
  (st' mod n, st').

Definition simulate := simulate_double_pendulum poly_sin poly_cos square_power euler_odeint.
Definition chaotic := get_chaotic_value_from_pendulum poly_sin poly_cos square_power euler_odeint.
Definition chaotic_value := get_chaotic_value_from_pendulum_default poly_sin poly_cos square_power euler_odeint.
Definition combined_seed := create_combined_seed poly_sin poly_cos square_power euler_odeint fnv1a.
Definition seeds := draw_seeds poly_sin poly_cos square_power euler_odeint fnv1a.
Definition draw := generate_eurodreams_numbers lcg_seed lcg_randbelow.

End Reference.

(** ** Dates of the draws *)

(** A naive [datetime]: the day as its proleptic Gregorian ordinal (day 1 is
    Monday, 1 January of year 1) and the time of day. *)
Record datetime : Type := {
  ordinal : Z;
  hour : Z;
  minute : Z;
  second : Z;
  microsecond : Z
}.

(** [date(9999, 12, 31).toordinal()] *)
Definition MAXORDINAL : Z := 3652059.

(** What the constructors guarantee of a [datetime]. *)
Definition valid_datetime (d : datetime) : Prop :=
  1 <= ordinal d <= MAXORDINAL /\
  0 <= hour d < 24 /\ 0 <= minute d < 60 /\ 0 <= second d < 60 /\
  0 <= microsecond d < 1000000.

(** [d.weekday()]: Monday is 0 and Sunday is 6. *)
Definition weekday (d : datetime) : Z := (ordinal d + 6) mod 7.

(** [timedelta(days=n)]: the number of days, refused with [OverflowError]
    beyond 999999999 in magnitude. *)
Definition timedelta_days (n : Z) : result Z :=
  if (-999999999 <=? n) && (n <=? 999999999) then Ok n else Raise OverflowError.

(** [d + delta] for a number of whole days: the time of day stays, a date
    out of the years 1 to 9999 raises [OverflowError]. *)
Definition datetime_add (d : datetime) (days : Z) : result datetime :=
  let o := ordinal d + days in
  if (1 <=? o) && (o <=? MAXORDINAL)
  then Ok {| ordinal := o; hour := hour d; minute := minute d;
             second := second d; microsecond := microsecond d |}
  else Raise OverflowError.

(** [d.replace(hour=h, minute=m, second=s, microsecond=us)] *)
Definition datetime_replace (d : datetime) (h m s us : Z) : datetime :=
  {| ordinal := ordinal d; hour := h; minute := m; second := s; microsecond := us |}.

(** [d1 < d2] on naive datetimes with valid fields: the earlier day, or the
    same day and the earlier time. *)
Definition datetime_lt (d1 d2 : datetime) : Prop :=
  ordinal d1 < ordinal d2 \/
  (ordinal d1 = ordinal d2 /\
   ((hour d1 * 60 + minute d1) * 60 + second d1) * 1000000 + microsecond d1
   < ((hour d2 * 60 + minute d2) * 60 + second d2) * 1000000 + microsecond d2).

(** [next_weekday]; [today] is the value of [datetime.now()]. *)
Definition next_weekday (today : datetime) (target_weekday : Z) : result datetime :=
  let days_ahead := target_weekday - weekday today in
  let days_ahead := if days_ahead <=? 0 then days_ahead + 7 else days_ahead in
  delta ← timedelta_days days_ahead;
  next_draw_day ← datetime_add today delta;
  Ok (datetime_replace next_draw_day 20 30 0 0).

(** The dictionary of [get_weekday]. *)
Definition weekdays : gmap string string :=
  list_to_map
    [("Monday", "Lun"); ("Tuesday", "Mar"); ("Wednesday", "Mer"); ("Thursday", "Jeu");
     ("Friday", "Ven"); ("Saturday", "Sam"); ("Sunday", "Dim")]%string.

(** [get_weekday]; [day_name] is the value of
    [datetime.now().strftime("%A")], the name of the day in the locale of the
    process. *)
Definition get_weekday (day_name : string) : string :=
  default "Inconnu"%string (weekdays !! day_name).

(** [%A] in the C locale. *)
Definition c_locale_day_name (d : datetime) : string :=
  nth (Z.to_nat (weekday d))
    ["Monday"; "Tuesday"; "Wednesday"; "Thursday"; "Friday"; "Saturday"; "Sunday"]%string
    ""%string.

(** The choice of the draw day in the main program, on the answer already
    stripped and lowered: an answer that is neither of the two days ends the
    program ([None]); otherwise the target is 0 for [lundi] and 3 for
    [jeudi]. *)
Definition choose_target_weekday (day_of_week : string) : option Z :=
  if decide (day_of_week ∈ ["lundi"; "jeudi"]%string)
  then Some (if decide (day_of_week = "lundi"%string) then 0 else 3)
  else None.

(** ** The calls of the module on the state of the process

    What the functions of the module share from one call to the next: the
    hidden generator of [random], and the list object that is the default
    value of [y0], made once, when [get_chaotic_value_from_pendulum] is
    defined, and read by every call that does not pass [y0]. *)

Inductive call : Type :=
| GetChaoticValue
| CreateCombinedSeed (current_time_seed : Z) (weather_seed : list byte)
| GenerateNumbers (seed : Z).

Inductive returned : Type :=
| ChaoticValue (chaotic_value : float)
| CombinedSeed (combined_seed : Z)
| Numbers (numbers : list Z * list Z).

Section Process.

Variable np_sin np_cos : float -> float.
Variable np_power : float -> float -> float.
Variable odeint :
  (list float -> float -> result (list float)) ->
  list float -> list float -> result (list (list float)).
Variable hash : list byte -> Z.
Context {state : Type}.
Variable seed_int : Z -> state.
Variable randbelow : Z -> state -> Z * state.

Record process : Type := {
  generator : state;
  y0_object : list float
}.

(** [get_chaotic_value_from_pendulum()]: the content of the default list is
    read at the call. *)
Definition call_get_chaotic_value (p : process) : result float :=
  get_chaotic_value_from_pendulum np_sin np_cos np_power odeint
    default_L1 default_L2 default_m1 default_m2 default_tmax default_dt (y0_object p).

(** [create_combined_seed], with its call of the extractor. *)
Definition call_create_combined_seed (current_time_seed : Z) (weather_seed : list byte)
  (p : process) : result Z :=
  chaotic_value ← call_get_chaotic_value p;
  chaotic_term ← py_int (abs chaotic_value * of_Z 1000000)%F;
  Ok (hash weather_seed + current_time_seed + chaotic_term).

(** One call: what it returns and the state it leaves.  The two functions of
    the pendulum write nothing; the sampler leaves the generator as its two
    draws left it. *)
Definition exec (c : call) (p : process) : result (returned * process) :=
  match c with
  | GetChaoticValue =>
      chaotic_value ← call_get_chaotic_value p;
      Ok (ChaoticValue chaotic_value, p)
  | CreateCombinedSeed current_time_seed weather_seed =>
      combined_seed ← call_create_combined_seed current_time_seed weather_seed p;
      Ok (CombinedSeed combined_seed, p)
  | GenerateNumbers seed =>
      '(numbers, st) ← generate_eurodreams_numbers seed_int randbelow seed (generator p);
      Ok (Numbers numbers, {| generator := st; y0_object := y0_object p |})
  end.

(** A run of the process: the calls in their order, up to the first one that
    raises. *)
Fixpoint run (calls : list call) (p : process) : list returned * process :=
  match calls with
  | [] => ([], p)
  | c :: calls' =>
      match exec c p with
      | Ok (r, p') => let '(rs, p'') := run calls' p' in (r :: rs, p'')
      | Raise _ => ([], p)
      end
  end.

End Process.

Arguments process : clear implicits.

(** ** The draws of the main program *)

Section MainProgram.

Variable np_sin np_cos : float -> float.
Variable np_power : float -> float -> float.
Variable odeint :
  (list float -> float -> result (list float)) ->
  list float -> list float -> result (list (list float)).
Variable hash : list byte -> Z.
Context {state : Type}.
Variable seed_int : Z -> state.
Variable randbelow : Z -> state -> Z * state.

(** The loop of the trial draws over the values of [i] still to come;
    [base] is [int(current_datetime.strftime("%d%H%M%S%f"))]. *)
Fixpoint trial_loop (todo : list Z) (base : Z) (weather_seed : list byte)
  (all_trial_results : list (list Z * list Z)) (st : state)
  : result (list (list Z * list Z) * state) :=
  match todo with
  | [] => Ok (all_trial_results, st)
  | i :: todo' =>
      let current_time_seed := base + i in
      combined_seed ←
        create_combined_seed np_sin np_cos np_power odeint hash current_time_seed weather_seed;
      '(numbers, st') ← generate_eurodreams_numbers seed_int randbelow combined_seed st;
      trial_loop todo' base weather_seed (all_trial_results ++ [numbers]) st'
  end.

(** The 47 trial draws, then the official draw. *)
Definition main_draws (base : Z) (weather_seed : list byte) (st : state)
  : result ((list (list Z * list Z) * (list Z * list Z)) * state) :=
  '(all_trial_results, st) ← trial_loop (py_range 0 47) base weather_seed [] st;
  let official_time_seed := base + 47 in
  official_seed ←
    create_combined_seed np_sin np_cos np_power odeint hash official_time_seed weather_seed;
  '(official, st) ← generate_eurodreams_numbers seed_int randbelow official_seed st;
  Ok ((all_trial_results, official), st).

End MainProgram.

(** The main program on the executable instance. *)
Definition reference_main :=
  main_draws Reference.poly_sin Reference.poly_cos Reference.square_power
    Reference.euler_odeint Reference.fnv1a Reference.lcg_seed Reference.lcg_randbelow.

(** A draw as the sampler returns it. *)
Definition wellformed_draw (numbers : list Z * list Z) : Prop :=
  length (fst numbers) = 6%nat /\
  StronglySorted Z.lt (fst numbers) /\
  Forall (fun x => 1 <= x <= 40) (fst numbers) /\
  exists bonus, snd numbers = [bonus] /\ 1 <= bonus <= 5.

(** * Facts *)

(** ** Results and Python sequences *)

Lemma py_getitem_lookup {A} (l : list A) (i : Z) :
  0 <= i < Z.of_nat (length l) ->
  exists x, py_getitem l i = Ok x /\ l !! Z.to_nat i = Some x.
Proof.
  intros Hi. unfold py_getitem.
  destruct (Z.ltb_spec i 0) as [?|_]; [lia|].
  destruct (Z.leb_spec 0 i) as [_|?]; [|lia].
  destruct (Z.ltb_spec i (Z.of_nat (length l))) as [_|?]; [|lia].
  simpl. destruct (lookup_lt_is_Some_2 l (Z.to_nat i)) as [x Hx]; [lia|].
  exists x. rewrite Hx. auto.
Qed.

Lemma py_setitem_insert {A} (l : list A) (i : Z) (x : A) :
  0 <= i < Z.of_nat (length l) ->
  py_setitem l i x = Ok (<[Z.to_nat i := x]> l).
Proof.
  intros Hi. unfold py_setitem.
  destruct (Z.ltb_spec i 0) as [?|_]; [lia|].
  destruct (Z.leb_spec 0 i) as [_|?]; [|lia].
  destruct (Z.ltb_spec i (Z.of_nat (length l))) as [_|?]; [|lia].
  reflexivity.
Qed.

(** [l[-1]] is the last element of a non-empty sequence. *)
Lemma py_getitem_last {A} (l : list A) :
  l <> [] -> exists x, py_getitem l (-1) = Ok x /\ last l = Some x.
Proof.
  intros Hl. unfold py_getitem.
  assert (0 < length l)%nat by (destruct l; [congruence | simpl; lia]).
  change (-1 <? 0) with true. cbv iota.
  destruct (Z.leb_spec 0 (-1 + Z.of_nat (length l))) as [_|?]; [|lia].
  destruct (Z.ltb_spec (-1 + Z.of_nat (length l)) (Z.of_nat (length l))) as [_|?]; [|lia].
  simpl. rewrite last_lookup.
  replace (Z.to_nat (-1 + Z.of_nat (length l))) with (pred (length l)) by lia.
  destruct (lookup_lt_is_Some_2 l (pred (length l))) as [x Hx]; [lia|].
  exists x. rewrite Hx. auto.
Qed.

(** On an empty sequence [l[-1]] raises. *)
Lemma py_getitem_empty {A} (i : Z) : py_getitem (@nil A) i = Raise IndexError.
Proof.
  unfold py_getitem. simpl length.
  set (k := if i <? 0 then i + Z.of_nat 0 else i).
  destruct (Z.leb_spec 0 k), (Z.ltb_spec k (Z.of_nat 0)); simpl; try reflexivity; lia.
Qed.

Lemma py_range_length (a b : Z) : length (py_range a b) = Z.to_nat (b - a).
Proof. unfold py_range. now rewrite length_fmap, length_seq. Qed.

Lemma py_range_elem (a b x : Z) : x ∈ py_range a b <-> a <= x < b.
Proof.
  unfold py_range. rewrite list_elem_of_fmap. split.
  - intros (i & -> & Hi). apply elem_of_seq in Hi. lia.
  - intros Hx. exists (Z.to_nat (x - a)). split; [lia|].
    apply elem_of_seq. lia.
Qed.

Lemma py_range_NoDup (a b : Z) : NoDup (py_range a b).
Proof.
  unfold py_range. apply NoDup_fmap_2_strong; [|apply NoDup_seq].
  intros x y _ _ Hxy. lia.
Qed.

(** ** Sorting *)

Lemma sorted_Permutation (l : list Z) : sorted l ≡ₚ l.
Proof. apply merge_sort_Permutation. Qed.

Lemma sorted_Sorted (l : list Z) : StronglySorted Z.le (sorted l).
Proof. apply StronglySorted_merge_sort; apply _. Qed.

(** The ascending rearrangement of a list of integers is unique: any sorting
    function returns what [sorted] returns. *)
Lemma sorted_unique (l l' : list Z) :
  l' ≡ₚ l -> StronglySorted Z.le l' -> l' = sorted l.
Proof.
  intros Hp Hs. apply (StronglySorted_unique Z.le); [assumption|apply sorted_Sorted|].
  now rewrite sorted_Permutation.
Qed.

(** Without repetition the order is strict. *)
Lemma StronglySorted_le_lt (l : list Z) :
  NoDup l -> StronglySorted Z.le l -> StronglySorted Z.lt l.
Proof.
  induction 2 as [|x l Hs IH Hx]; constructor.
  - apply IH. now apply NoDup_cons_1_2 in H.
  - apply NoDup_cons_1_1 in H. rewrite Forall_forall in *. intros y Hy.
    specialize (Hx y Hy). assert (x <> y) by (intros ->; contradiction). lia.
Qed.

(** ** The selection loop of [random.sample] *)

(** One step of the loop: the selected element and the remaining candidates
    are the candidates of before. *)
Lemma select_Permutation (l : list Z) (j m : nat) (x y : Z) :
  (j < m)%nat -> (m <= length l)%nat ->
  l !! j = Some x -> l !! (m - 1)%nat = Some y ->
  x :: take (m - 1) (<[j := y]> l) ≡ₚ take m l.
Proof.
  intros Hj Hm Hx Hy.
  replace m with (S (m - 1)) at 2 by lia. rewrite (take_S_r _ _ y Hy).
  destruct (decide (j = m - 1)%nat) as [->|Hne].
  - rewrite list_insert_id by assumption.
    assert (x = y) by congruence. subst. apply Permutation_cons_append.
  - rewrite take_insert_lt by lia.
    assert (Hx' : take (m - 1) l !! j = Some x)
      by (rewrite lookup_take_lt by lia; assumption).
    rewrite insert_take_drop by (apply lookup_lt_Some in Hx'; assumption).
    rewrite <- (take_drop_middle (take (m - 1) l) j x Hx') at 3.
    rewrite <- !app_assoc. simpl.
    etransitivity; [|apply Permutation_middle].
    apply perm_skip, Permutation_app_head, Permutation_cons_append.
Qed.

Lemma sample_branch : Z.of_nat (length (py_range 1 41)) <= sample_setsize 6.
Proof. vm_compute. discriminate. Qed.

Section RandomFacts.

Context {state : Type}.
Variable seed_int : Z -> state.
Variable randbelow : Z -> state -> Z * state.
Hypothesis randbelow_ok : randbelow_range randbelow.

Lemma sample_pool_spec (todo : nat) : forall n i pool selected st,
  n = Z.of_nat (length pool) -> 0 <= i -> i + Z.of_nat todo <= n ->
  exists picked pool',
    sample_pool randbelow todo n i pool selected st
      = Ok (selected ++ picked,
            snd (randbelow_seq randbelow (sample_bounds (n - i) todo) st)) /\
    length picked = todo /\
    picked ++ take (Z.to_nat (n - i) - todo) pool' ≡ₚ take (Z.to_nat (n - i)) pool.
Proof.
  induction todo as [|todo IH]; intros n i pool selected st Hn Hi Hle.
  - exists [], pool. simpl. rewrite app_nil_r, Nat.sub_0_r. auto.
  - simpl sample_pool. simpl sample_bounds. simpl randbelow_seq.
    pose proof (randbelow_ok (n - i) st) as Hj.
    destruct (randbelow (n - i) st) as [j st'] eqn:Hrb. simpl in Hj.
    assert (0 <= j < n - i) as Hj' by (apply Hj; lia). clear Hj.
    destruct (py_getitem_lookup pool j) as (x & Hgx & Hx); [lia|].
    destruct (py_getitem_lookup pool (n - i - 1)) as (y & Hgy & Hy); [lia|].
    rewrite Hgx. simpl. rewrite Hgy. simpl.
    rewrite py_setitem_insert by lia. simpl.
    destruct (IH n (i + 1) (<[Z.to_nat j := y]> pool) (selected ++ [x]) st')
      as (picked & pool' & Heq & Hlen & Hperm);
      [rewrite length_insert; assumption | lia | lia |].
    exists (x :: picked), pool'. split; [|split].
    + rewrite Heq, <- app_assoc. simpl.
      replace (n - (i + 1)) with (n - i - 1) by lia.
      destruct (randbelow_seq randbelow (sample_bounds (n - i - 1) todo) st'); reflexivity.
    + simpl. lia.
    + simpl.
      replace (Z.to_nat (n - i) - S todo)%nat
        with (Z.to_nat (n - (i + 1)) - todo)%nat by lia.
      rewrite Hperm.
      replace (Z.to_nat (n - (i + 1))) with (Z.to_nat (n - i) - 1)%nat by lia.
      apply select_Permutation; try lia; try assumption.
      replace (Z.to_nat (n - i) - 1)%nat with (Z.to_nat (n - i - 1)) by lia.
      assumption.
Qed.

(** [random.sample] returns [k] elements of the population, each taken at
    most as often as it occurs there, after one call of [_randbelow] per
    element with bounds [n], [n - 1], ... *)
Lemma random_sample_spec (population : list Z) (k : Z) (st : state) :
  0 <= k <= Z.of_nat (length population) ->
  exists sample rest,
    random_sample randbelow population k st
      = Ok (sample,
            snd (randbelow_seq randbelow
                   (sample_bounds (Z.of_nat (length population)) (Z.to_nat k)) st)) /\
    Z.of_nat (length sample) = k /\
    sample ++ rest ≡ₚ population.
Proof.
  intros Hk. unfold random_sample.
  destruct (Z.leb_spec 0 k) as [_|?]; [|lia].
  destruct (Z.leb_spec k (Z.of_nat (length population))) as [_|?]; [|lia].
  simpl negb. cbv iota.
  destruct (sample_pool_spec (Z.to_nat k) (Z.of_nat (length population)) 0
              population [] st) as (picked & pool' & Heq & Hlen & Hperm);
    [reflexivity | lia | lia |].
  rewrite Z.sub_0_r in *. rewrite Nat2Z.id in Hperm.
  rewrite firstn_all in Hperm.
  exists picked, (take (length population - Z.to_nat k) pool').
  simpl in Heq. split; [exact Heq|]. split; [lia|exact Hperm].
Qed.

(** The draw, step by step: the seeded state, the state left by the six
    selections, and the bonus draw made from that state. *)
Lemma generate_steps (seed : Z) (st : state) :
  let st0 := seed_int seed in
  let st6 := snd (randbelow_seq randbelow (sample_bounds 40 6) st0) in
  exists sample rest,
    random_sample randbelow (py_range 1 41) 6 st0 = Ok (sample, st6) /\
    generate_eurodreams_numbers seed_int randbelow seed st
      = Ok ((sorted sample, [1 + fst (randbelow 5 st6)]), snd (randbelow 5 st6)) /\
    length sample = 6%nat /\
    sample ++ rest ≡ₚ py_range 1 41.
Proof.
  intros st0 st6.
  destruct (random_sample_spec (py_range 1 41) 6 st0) as (sample & rest & Heq & Hlen & Hperm).
  { rewrite py_range_length. simpl. lia. }
  rewrite py_range_length in Heq. change (Z.of_nat (Z.to_nat (41 - 1))) with 40 in Heq.
  change (Z.to_nat 6) with 6%nat in Heq. fold st0 in Heq. fold st6 in Heq.
  exists sample, rest. split; [exact Heq|]. split; [|split; [lia|exact Hperm]].
  unfold generate_eurodreams_numbers, random_seed. fold st0. rewrite Heq. simpl.
  unfold random_randint. change (1 + 1 - 1) with 1. change (5 + 1 - 1) with 5.
  change (0 <? 5) with true. cbv iota.
  destruct (randbelow 5 st6); reflexivity.
Qed.

Lemma sample_distinct_in_range (sample rest : list Z) :
  sample ++ rest ≡ₚ py_range 1 41 ->
  NoDup sample /\ Forall (fun x => 1 <= x <= 40) sample.
Proof.
  intros Hperm. split.
  - pose proof (py_range_NoDup 1 41) as Hnd. rewrite <- Hperm in Hnd.
    apply NoDup_app in Hnd. tauto.
  - apply Forall_forall. intros x Hx.
    assert (x ∈ py_range 1 41) as Hin by (rewrite <- Hperm, elem_of_app; auto).
    apply py_range_elem in Hin. lia.
Qed.

End RandomFacts.

(** ** Binary64 facts *)

(** [floor_scaled n e] is the floor of [n * 2^e]. *)
Lemma floor_scaled_bounds (n e : Z) :
  e < 0 ->
  floor_scaled n e * 2 ^ (- e) <= n < (floor_scaled n e + 1) * 2 ^ (- e).
Proof.
  intros He. unfold floor_scaled.
  destruct (Z.leb_spec 0 e) as [?|_]; [lia|].
  assert (0 < 2 ^ (- e)) by (apply Z.pow_pos_nonneg; lia).
  pose proof (Z.mul_div_le n (2 ^ (- e))) as Hlo.
  pose proof (Z.mul_succ_div_gt n (2 ^ (- e))) as Hhi.
  lia.
Qed.

(** On a value that is not negative, truncation toward zero is the floor. *)
Lemma trunc_floor_nonneg (x : float) : signbit x = false -> trunc x = floor x.
Proof.
  destruct x as [s|s| |s m e]; simpl; try reflexivity.
  intros ->. simpl. unfold trunc_scaled, floor_scaled.
  destruct (Z.leb_spec 0 e); [reflexivity|].
  f_equal. apply Z.quot_div_nonneg; [lia|].
  apply Z.pow_pos_nonneg; lia.
Qed.

Lemma gt_zero_cases (x : float) :
  gt_zero x -> (exists m e, x = S754_finite false m e) \/ x = S754_infinity false.
Proof.
  unfold gt_zero, ltb, SFltb. destruct x as [s|[|]| |[|] m e]; simpl; try discriminate; eauto.
Qed.

Lemma gt_zero_sign (x : float) : gt_zero x -> sign_or_nan false x.
Proof. intros H. destruct (gt_zero_cases x H) as [(m & e & ->)| ->]; reflexivity. Qed.

Lemma gt_zero_not_zero (x : float) : gt_zero x -> is_zero x = false.
Proof. intros H. destruct (gt_zero_cases x H) as [(m & e & ->)| ->]; reflexivity. Qed.

(** Rounding keeps the sign it is given. *)
Lemma binary_round_aux_sign (s : bool) (m e : Z) (l : location) :
  sign_or_nan s (binary_round_aux prec emax s m e l).
Proof.
  unfold binary_round_aux.
  destruct (shr_fexp prec emax m e l) as [mrs' e'].
  destruct (shr_fexp prec emax _ e' loc_Exact) as [mrs'' e''].
  destruct (shr_m mrs''); simpl; auto.
  destruct (e'' <=? emax - prec); reflexivity.
Qed.

Lemma of_Z_sign (z : Z) : 0 <= z -> sign_or_nan false (of_Z z).
Proof.
  intros Hz. unfold of_Z, binary_normalize. destruct z as [|p|p]; [reflexivity| |lia].
  unfold binary_round. destruct (shl_align _ _ _). apply binary_round_aux_sign.
Qed.

Lemma mul_sign (x y : float) :
  sign_or_nan false x -> sign_or_nan false y -> sign_or_nan false (x * y)%F.
Proof.
  destruct x as [sx|sx| |sx mx ex], y as [sy|sy| |sy my ey]; simpl;
    intros; subst; try reflexivity; try exact I.
  apply binary_round_aux_sign.
Qed.

Lemma div_sign (x y : float) :
  gt_zero x -> gt_zero y -> sign_or_nan false (x / y)%F.
Proof.
  intros Hx Hy.
  destruct (gt_zero_cases x Hx) as [(mx & ex & ->)| ->],
           (gt_zero_cases y Hy) as [(my & ey & ->)| ->]; try reflexivity.
  unfold div, SFdiv. destruct (SFdiv_core_binary _ _ _ _ _ _) as [[mz ez] lz].
  apply binary_round_aux_sign.
Qed.

Lemma add_zero_l (y : float) : sign_or_nan false y -> (zero + y)%F = y.
Proof. destruct y as [[|]| | |]; simpl; intros; try discriminate; reflexivity. Qed.

Lemma sub_zero_r (x : float) : (x - zero)%F = x.
Proof. destruct x as [[|]| | |]; reflexivity. Qed.

(** The ceiling of a positive number is at least one. *)
Lemma ceil_gt_zero (m : positive) (e n : Z) :
  ceil (S754_finite false m e) = Some n -> 1 <= n.
Proof.
  simpl. unfold floor_scaled. intros [= <-].
  destruct (Z.leb_spec 0 e).
  - assert (0 < 2 ^ e) by (apply Z.pow_pos_nonneg; lia). nia.
  - assert (0 < 2 ^ (- e)) by (apply Z.pow_pos_nonneg; lia).
    assert (- Z.pos m / 2 ^ (- e) < 0) by (apply Z.div_lt_upper_bound; lia).
    lia.
Qed.

(** ** The time grid *)

Lemma arange_fill_zero (dt : float) (len : nat) :
  gt_zero dt -> arange_fill zero (zero + dt)%F len = grid_times dt len.
Proof.
  intros Hd. unfold arange_fill, grid_times.
  rewrite (add_zero_l dt (gt_zero_sign dt Hd)), sub_zero_r.
  do 3 f_equal. apply list_fmap_ext. intros _ i _.
  apply add_zero_l, mul_sign; [apply of_Z_sign; lia | apply gt_zero_sign, Hd].
Qed.

(** The length that [arange] computes for a positive duration and a positive
    step: the conversion of the ceiling of the rounded quotient, or one when
    the quotient underflowed to zero. *)
Lemma arange_calc_length_value (tmax dt : float) :
  gt_zero tmax -> gt_zero dt ->
  arange_calc_length zero tmax dt =
    match ceil (tmax / dt)%F with
    | Some q =>
        if q <=? NPY_MAX_INTP + 1 then Ok (double_to_intp (Z.max 1 q))
        else Raise OverflowError
    | None =>
        match (tmax / dt)%F with
        | S754_nan => Raise ValueError
        | _ => Raise OverflowError
        end
    end.
Proof.
  intros Ht Hd. unfold arange_calc_length.
  rewrite sub_zero_r, (gt_zero_not_zero dt Hd), (gt_zero_not_zero tmax Ht).
  pose proof (div_sign tmax dt Ht Hd) as Hs.
  destruct (tmax / dt)%F as [s|s| |s m e] eqn:Hq; simpl in Hs; subst.
  - reflexivity.
  - reflexivity.
  - reflexivity.
  - change (is_zero (S754_finite false m e)) with false. simpl andb. cbv iota.
    unfold arange_safe_ceil_to_intp.
    destruct (ceil (S754_finite false m e)) as [c|] eqn:Hc; [|discriminate].
    pose proof (ceil_gt_zero m e c Hc).
    destruct (Z.leb_spec NPY_MIN_INTP c) as [_|Hlt]; [|unfold NPY_MIN_INTP in Hlt; lia].
    simpl andb. destruct (c <=? NPY_MAX_INTP + 1); [|reflexivity].
    do 2 f_equal. lia.
Qed.

(** The grid for a positive duration and a positive step.  The ceiling
    [2^63] of the quotient is converted to a negative length and gives the
    empty grid; a ceiling beyond it, and a length of more than
    [NPY_MAX_INTP] bytes, are refused; in the other cases the grid is
    [grid_times]. *)
Lemma np_arange_value (tmax dt : float) :
  gt_zero tmax -> gt_zero dt ->
  np_arange zero tmax dt =
    match ceil (tmax / dt)%F with
    | Some q =>
        if NPY_MAX_INTP + 1 <? q then Raise ValueError
        else if q =? NPY_MAX_INTP + 1 then Ok []
        else if NPY_MAX_INTP <? Z.max 1 q * float64_itemsize then Raise ValueError
        else Ok (grid_times dt (Z.to_nat (Z.max 1 q)))
    | None => Raise ValueError
    end.
Proof.
  intros Ht Hd. unfold np_arange. rewrite (arange_calc_length_value tmax dt Ht Hd).
  assert (1 <= NPY_MAX_INTP) by (unfold NPY_MAX_INTP; lia).
  destruct (ceil (tmax / dt)%F) as [q|].
  - unfold double_to_intp.
    destruct (Z.leb_spec q (NPY_MAX_INTP + 1)), (Z.ltb_spec (NPY_MAX_INTP + 1) q);
      try lia; [|reflexivity].
    destruct (Z.eqb_spec q (NPY_MAX_INTP + 1)) as [->|Hne].
    + destruct (Z.leb_spec (Z.max 1 (NPY_MAX_INTP + 1)) NPY_MAX_INTP); [lia|]. reflexivity.
    + destruct (Z.leb_spec (Z.max 1 q) NPY_MAX_INTP); [|lia].
      destruct (Z.leb_spec (Z.max 1 q) 0); [lia|].
      destruct (NPY_MAX_INTP <? Z.max 1 q * float64_itemsize); [reflexivity|].
      now rewrite arange_fill_zero.
  - destruct (tmax / dt)%F; reflexivity.
Qed.

(** With a positive duration and a positive step the grid is [grid_times]
    for the length that [arange] computes, when that length is positive and
    its size in bytes is within [NPY_MAX_INTP]. *)
Lemma np_arange_gt_zero (tmax dt : float) (n : Z) :
  gt_zero dt ->
  arange_calc_length zero tmax dt = Ok n ->
  1 <= n -> n * float64_itemsize <= NPY_MAX_INTP ->
  np_arange zero tmax dt = Ok (grid_times dt (Z.to_nat n)).
Proof.
  intros Hd Hn Hpos Hsize. unfold np_arange. rewrite Hn.
  destruct (Z.leb_spec n 0); [lia|].
  destruct (Z.ltb_spec NPY_MAX_INTP (n * float64_itemsize)); [lia|].
  now rewrite arange_fill_zero.
Qed.

Lemma np_arange_raise (start stop step : float) (e : exception) :
  arange_calc_length start stop step = Raise e ->
  np_arange start stop step = Raise (arange_error e).
Proof. intros H. unfold np_arange. now rewrite H. Qed.

(** A grid that [arange] returns for a positive duration and a positive step
    is empty, when the ceiling of the quotient is [2^63], or else is
    [grid_times] for a length of at least one. *)
Lemma np_arange_inv (tmax dt : float) (t : list float) :
  gt_zero tmax -> gt_zero dt ->
  np_arange zero tmax dt = Ok t ->
  exists q, ceil (tmax / dt)%F = Some q /\
    ((q = NPY_MAX_INTP + 1 /\ t = []) \/
     (q <= NPY_MAX_INTP /\ Z.max 1 q * float64_itemsize <= NPY_MAX_INTP /\
      t = grid_times dt (Z.to_nat (Z.max 1 q)))).
Proof.
  intros Ht Hd. rewrite (np_arange_value tmax dt Ht Hd).
  destruct (ceil (tmax / dt)%F) as [q|]; [|discriminate].
  destruct (Z.ltb_spec (NPY_MAX_INTP + 1) q); [discriminate|].
  destruct (Z.eqb_spec q (NPY_MAX_INTP + 1)) as [->|Hne].
  - intros [= <-]. eauto.
  - destruct (Z.ltb_spec NPY_MAX_INTP (Z.max 1 q * float64_itemsize)); [discriminate|].
    intros [= <-]. exists q. split; [reflexivity|]. right. repeat split; lia.
Qed.

Lemma np_arange_nonempty (tmax dt : float) (t : list float) :
  gt_zero tmax -> gt_zero dt ->
  ceil (tmax / dt)%F <> Some (NPY_MAX_INTP + 1) ->
  np_arange zero tmax dt = Ok t ->
  exists rest, t = zero :: rest.
Proof.
  intros Ht Hd Hq Hgrid.
  destruct (np_arange_inv tmax dt t Ht Hd Hgrid) as (q & Hc & [[-> _]|(_ & _ & ->)]).
  - contradiction.
  - unfold grid_times. destruct (Z.to_nat (Z.max 1 q)) eqn:E; [lia|]. simpl. eauto.
Qed.

Lemma grid_times_length (dt : float) (len : nat) :
  (1 <= len)%nat -> length (grid_times dt len) = len.
Proof.
  intros H. unfold grid_times. rewrite length_take. simpl.
  rewrite length_fmap, length_seq. lia.
Qed.

Lemma grid_times_head (dt : float) (len : nat) :
  (1 <= len)%nat -> exists rest, grid_times dt len = zero :: rest.
Proof. intros H. destruct len; [lia|]. unfold grid_times. simpl. eauto. Qed.

(** The grid of the default arguments: 1000 samples, the last one at
    [fl(999 * 0.01)], below [tmax]. *)
Lemma default_grid_length : arange_calc_length zero default_tmax default_dt = Ok 1000.
Proof. vm_compute. reflexivity. Qed.

Lemma default_gt_zero : gt_zero default_tmax /\ gt_zero default_dt /\ ltb default_dt default_tmax = true.
Proof. vm_compute. auto. Qed.

Lemma default_grid :
  np_arange zero default_tmax default_dt = Ok (grid_times default_dt 1000).
Proof.
  destruct default_gt_zero as (_ & Hd & _).
  apply (np_arange_gt_zero _ _ 1000 Hd default_grid_length); [lia|].
  unfold float64_itemsize, NPY_MAX_INTP. lia.
Qed.

Lemma default_grid_below_tmax :
  forallb (fun t => ltb t default_tmax) (grid_times default_dt 1000) = true.
Proof. vm_compute. reflexivity. Qed.

Lemma default_grid_monotonic : monotonic (grid_times default_dt 1000) = true.
Proof. vm_compute. reflexivity. Qed.

(** ** The integrator and the extractor *)

Lemma mapM_result_length {A B} (f : A -> result B) (l : list A) :
  Forall (fun x => exists y, f x = Ok y) l ->
  exists k, mapM f l = Ok k /\ length k = length l.
Proof.
  induction 1 as [|x l [y Hy] _ [k [Hk Hlen]]]; simpl.
  - exists []. auto.
  - exists (y :: k). rewrite Hy. simpl. rewrite Hk. simpl. auto.
Qed.

Lemma mapM_result_length_inv {A B} (f : A -> result B) (l : list A) (k : list B) :
  mapM f l = Ok k -> length k = length l.
Proof.
  revert k. induction l as [|x l IH]; simpl; intros k.
  - intros [= <-]. reflexivity.
  - destruct (f x) as [y|]; simpl; [|discriminate].
    destruct (mapM f l) as [k'|]; simpl; [|discriminate].
    intros [= <-]. simpl. f_equal. now apply IH.
Qed.

Lemma mapM_result_fmap {A B} (f : A -> result B) (h : A -> B) (l : list A) :
  (forall x, f x = Ok (h x)) -> mapM f l = Ok (h <$> l).
Proof.
  intros Hf. induction l as [|x l IH]; simpl; [reflexivity|].
  rewrite Hf. simpl. rewrite IH. reflexivity.
Qed.

Lemma column_spec (sol : list (list float)) (k : Z) (n : nat) :
  0 <= k < Z.of_nat n ->
  Forall (fun row => length row = n) sol ->
  exists c, column sol k = Ok c /\ length c = length sol.
Proof.
  intros Hk Hrows. apply mapM_result_length.
  eapply Forall_impl; [exact Hrows|]. intros row Hrow. simpl in Hrow.
  destruct (py_getitem_lookup row k) as (x & Hx & _); [lia|]. eauto.
Qed.

Section PendulumFacts.

Variable np_sin np_cos : float -> float.
Variable np_power : float -> float -> float.
Variable odeint :
  (list float -> float -> result (list float)) ->
  list float -> list float -> result (list (list float)).
Variable hash : list byte -> Z.
Hypothesis odeint_ok : odeint_contract odeint.

Local Abbreviation simulate := (simulate_double_pendulum np_sin np_cos np_power odeint).
Local Abbreviation chaotic := (get_chaotic_value_from_pendulum np_sin np_cos np_power odeint).
Local Abbreviation chaotic_default :=
  (get_chaotic_value_from_pendulum_default np_sin np_cos np_power odeint).
Local Abbreviation combined_seed :=
  (create_combined_seed np_sin np_cos np_power odeint hash).

(** [deriv] does not raise on a state of four components, whatever the
    lengths and masses. *)
Lemma deriv_total (L1 L2 m1 m2 : float) (y : list float) (s : float) :
  length y = 4%nat ->
  exists d, deriv np_sin np_cos np_power y s L1 L2 m1 m2 = Ok d /\ length d = 4%nat.
Proof.
  intros Hy. destruct y as [|a [|b [|c [|d [|]]]]]; try discriminate.
  simpl. eauto.
Qed.

(** What a returned trajectory went through. *)
Lemma simulate_inv (L1 L2 m1 m2 tmax dt : float) (y0 theta1 theta2 : list float) :
  simulate L1 L2 m1 m2 tmax dt y0 = Ok (theta1, theta2) ->
  exists t sol,
    np_arange zero tmax dt = Ok t /\
    odeint (fun y s => deriv np_sin np_cos np_power y s L1 L2 m1 m2) y0 t = Ok sol /\
    column sol 0 = Ok theta1 /\ column sol 2 = Ok theta2.
Proof.
  unfold simulate_double_pendulum. change (of_Z 0) with zero.
  destruct (np_arange zero tmax dt) as [t|]; cbn [mbind result_bind]; [|discriminate].
  destruct (odeint _ y0 t) as [sol|] eqn:Hsol; cbn [mbind result_bind]; [|discriminate].
  destruct (column sol 0) as [c0|] eqn:H0; cbn [mbind result_bind]; [|discriminate].
  destruct (column sol 2) as [c2|] eqn:H2; cbn [mbind result_bind]; [|discriminate].
  intros [= <- <-]. exists t, sol. auto.
Qed.

(** On a non-empty grid that [odeint] accepts, the integrator returns one
    sample of each angle per grid time. *)
Lemma simulate_on_grid (L1 L2 m1 m2 tmax dt : float) (y0 t : list float) :
  length y0 = 4%nat ->
  np_arange zero tmax dt = Ok t -> t <> [] -> monotonic t = true ->
  exists theta1 theta2,
    simulate L1 L2 m1 m2 tmax dt y0 = Ok (theta1, theta2) /\
    length theta1 = length t /\ length theta2 = length t.
Proof.
  intros Hy0 Ht Hne Hmono. destruct odeint_ok as [Hshape Hreturns].
  destruct (Hreturns (fun y s => deriv np_sin np_cos np_power y s L1 L2 m1 m2) y0 t Hne Hmono)
    as (sol & Hsol).
  { intros ->. discriminate. }
  { intros y s Hy. rewrite Hy0 in *. now apply deriv_total. }
  destruct (Hshape _ _ _ _ Hsol) as [Hlen Hrows].
  rewrite Hy0 in Hrows.
  destruct (column_spec sol 0 4 ltac:(lia) Hrows) as (theta1 & H1 & Hl1).
  destruct (column_spec sol 2 4 ltac:(lia) Hrows) as (theta2 & H2 & Hl2).
  exists theta1, theta2. unfold simulate_double_pendulum.
  change (of_Z 0) with zero. rewrite Ht. cbn [mbind result_bind].
  rewrite Hsol. cbn [mbind result_bind]. rewrite H1. cbn [mbind result_bind].
  rewrite H2. cbn [mbind result_bind]. split; [reflexivity|]. lia.
Qed.

(** An exception of [arange] leaves the integrator as it is. *)
Lemma simulate_grid_raise (L1 L2 m1 m2 tmax dt : float) (y0 : list float) (e : exception) :
  np_arange zero tmax dt = Raise e ->
  simulate L1 L2 m1 m2 tmax dt y0 = Raise e.
Proof.
  intros Ht. unfold simulate_double_pendulum. change (of_Z 0) with zero.
  rewrite Ht. reflexivity.
Qed.

(** A trajectory that the integrator returns has as many samples as the
    grid that [arange] returned. *)
Lemma simulate_returns_grid (L1 L2 m1 m2 tmax dt : float) (y0 theta1 theta2 : list float) :
  simulate L1 L2 m1 m2 tmax dt y0 = Ok (theta1, theta2) ->
  exists t, np_arange zero tmax dt = Ok t /\
    length theta1 = length t /\ length theta2 = length t.
Proof.
  intros Hsim. destruct odeint_ok as [Hshape _].
  destruct (simulate_inv _ _ _ _ _ _ _ _ _ Hsim) as (t & sol & Hgrid & Hsol & H1 & H2).
  destruct (Hshape _ _ _ _ Hsol) as [Hlen _].
  apply mapM_result_length_inv in H1, H2.
  exists t. repeat split; try assumption; lia.
Qed.

(** On the empty grid a trajectory that the integrator returns has no
    sample, and the extractor returns no value: it raises, [IndexError] when
    the integrator returned. *)
Lemma empty_grid_no_value (L1 L2 m1 m2 tmax dt : float) (y0 : list float) :
  np_arange zero tmax dt = Ok [] ->
  (forall theta1 theta2,
     simulate L1 L2 m1 m2 tmax dt y0 = Ok (theta1, theta2) ->
     theta1 = [] /\ theta2 = [] /\
     chaotic L1 L2 m1 m2 tmax dt y0 = Raise IndexError) /\
  (forall v, chaotic L1 L2 m1 m2 tmax dt y0 <> Ok v).
Proof.
  intros Hgrid.
  assert (Hret : forall theta1 theta2,
     simulate L1 L2 m1 m2 tmax dt y0 = Ok (theta1, theta2) ->
     theta1 = [] /\ theta2 = [] /\
     chaotic L1 L2 m1 m2 tmax dt y0 = Raise IndexError).
  { intros theta1 theta2 Hsim.
    destruct (simulate_returns_grid _ _ _ _ _ _ _ _ _ Hsim) as (t & Ht & Hl1 & Hl2).
    rewrite Hgrid in Ht. injection Ht as <-.
    destruct theta1; [|discriminate]. destruct theta2; [|discriminate].
    split; [reflexivity|]. split; [reflexivity|].
    unfold get_chaotic_value_from_pendulum. rewrite Hsim. apply py_getitem_empty. }
  split; [exact Hret|]. intros v Hv.
  destruct (simulate L1 L2 m1 m2 tmax dt y0) as [[theta1 theta2]|e] eqn:Hsim.
  - destruct (Hret _ _ eq_refl) as (_ & _ & Hraise). congruence.
  - unfold get_chaotic_value_from_pendulum in Hv. rewrite Hsim in Hv. discriminate.
Qed.

(** The extractor returns the last sample of [theta2]. *)
Lemma chaotic_of_trajectory (L1 L2 m1 m2 tmax dt : float) (y0 theta1 theta2 : list float) :
  simulate L1 L2 m1 m2 tmax dt y0 = Ok (theta1, theta2) -> theta2 <> [] ->
  exists v, last theta2 = Some v /\ chaotic L1 L2 m1 m2 tmax dt y0 = Ok v.
Proof.
  intros Hsim Hne. destruct (py_getitem_last theta2 Hne) as (v & Hv & Hlast).
  exists v. split; [assumption|].
  unfold get_chaotic_value_from_pendulum. rewrite Hsim. exact Hv.
Qed.

(** The default call: 1000 samples, and the value is the last of them. *)
Lemma chaotic_default_value :
  exists theta1 theta2 v,
    simulate default_L1 default_L2 default_m1 default_m2 default_tmax default_dt default_y0
      = Ok (theta1, theta2) /\
    length theta1 = 1000%nat /\ length theta2 = 1000%nat /\
    last theta2 = Some v /\ chaotic_default = Ok v.
Proof.
  pose proof default_grid as Hgrid.
  destruct (simulate_on_grid default_L1 default_L2 default_m1 default_m2
              default_tmax default_dt default_y0 _ eq_refl Hgrid)
    as (theta1 & theta2 & Hsim & Hl1 & Hl2).
  { destruct (grid_times_head default_dt 1000) as [rest ->]; [lia | discriminate]. }
  { exact default_grid_monotonic. }
  rewrite grid_times_length in Hl1, Hl2 by lia.
  destruct (chaotic_of_trajectory _ _ _ _ _ _ _ _ _ Hsim) as (v & Hlast & Hv).
  { intros ->. discriminate. }
  exists theta1, theta2, v. auto.
Qed.

(** The chaotic term of the seed: [int()] of a product that is not negative
    is its floor. *)
Lemma chaotic_term_floor (v : float) (c : Z) :
  floor (abs v * of_Z 1000000)%F = Some c ->
  py_int (abs v * of_Z 1000000)%F = Ok c.
Proof.
  intros Hc.
  assert (Hs : sign_or_nan false (abs v * of_Z 1000000)%F).
  { apply mul_sign; [destruct v; simpl; auto | apply of_Z_sign; lia]. }
  destruct (abs v * of_Z 1000000)%F as [s|s| |s m e] eqn:Hx; simpl in Hs; subst;
    try discriminate.
  - simpl in *. congruence.
  - unfold py_int. rewrite trunc_floor_nonneg by reflexivity. now rewrite Hc.
Qed.

Lemma chaotic_term_undefined (v : float) :
  floor (abs v * of_Z 1000000)%F = None ->
  exists e, py_int (abs v * of_Z 1000000)%F = Raise e.
Proof.
  destruct (abs v * of_Z 1000000)%F; simpl; try discriminate; eauto.
Qed.

Lemma combined_seed_value (v : float) (c : Z) (t : Z) (w : list byte) :
  chaotic_default = Ok v ->
  floor (abs v * of_Z 1000000)%F = Some c ->
  combined_seed t w = Ok (hash w + t + c).
Proof.
  intros Hv Hc. unfold create_combined_seed. rewrite Hv. cbn [mbind result_bind].
  rewrite (chaotic_term_floor v c Hc). reflexivity.
Qed.

Lemma combined_seed_inv (v : float) (t s : Z) (w : list byte) :
  chaotic_default = Ok v ->
  combined_seed t w = Ok s ->
  exists c, floor (abs v * of_Z 1000000)%F = Some c /\ s = hash w + t + c.
Proof.
  intros Hv. destruct (floor (abs v * of_Z 1000000)%F) as [c|] eqn:Hc.
  - rewrite (combined_seed_value v c t w Hv Hc). intros [= <-]. eauto.
  - destruct (chaotic_term_undefined v Hc) as [e He].
    unfold create_combined_seed. rewrite Hv. cbn [mbind result_bind].
    rewrite He. discriminate.
Qed.

End PendulumFacts.

(** ** The state of the process *)

Section ProcessFacts.

Variable np_sin np_cos : float -> float.
Variable np_power : float -> float -> float.
Variable odeint :
  (list float -> float -> result (list float)) ->
  list float -> list float -> result (list (list float)).
Variable hash : list byte -> Z.
Context {state : Type}.
Variable seed_int : Z -> state.
Variable randbelow : Z -> state -> Z * state.

Local Abbreviation chaotic_default :=
  (get_chaotic_value_from_pendulum_default np_sin np_cos np_power odeint).
Local Abbreviation exec' := (exec np_sin np_cos np_power odeint hash seed_int randbelow).
Local Abbreviation run' := (run np_sin np_cos np_power odeint hash seed_int randbelow).

(** While the default list holds what the definition of the function put in
    it, the call without arguments is the call on the default values. *)
Lemma call_get_chaotic_value_default (p : process state) :
  y0_object p = default_y0 ->
  call_get_chaotic_value np_sin np_cos np_power odeint p = chaotic_default.
Proof. intros Hp. unfold call_get_chaotic_value. now rewrite Hp. Qed.

(** No call writes the default list. *)
Lemma exec_y0_object (c : call) (p p' : process state) (r : returned) :
  exec' c p = Ok (r, p') -> y0_object p' = y0_object p.
Proof.
  destruct c as [|t w|seed]; unfold exec.
  - destruct (call_get_chaotic_value _ _ _ _ p); cbn [mbind result_bind]; [|discriminate].
    now intros [= _ <-].
  - destruct (call_create_combined_seed _ _ _ _ _ _ _ p); cbn [mbind result_bind];
      [|discriminate].
    now intros [= _ <-].
  - destruct (generate_eurodreams_numbers seed_int randbelow seed (generator p))
      as [[numbers st]|]; cbn [mbind result_bind]; [|discriminate].
    now intros [= _ <-].
Qed.

Lemma exec_chaotic_value (c : call) (p p' : process state) (v x : float) :
  y0_object p = default_y0 -> chaotic_default = Ok v ->
  exec' c p = Ok (ChaoticValue x, p') -> x = v.
Proof.
  intros Hp Hv. destruct c as [|t w|seed]; unfold exec.
  - rewrite (call_get_chaotic_value_default p Hp), Hv. cbn [mbind result_bind].
    now intros [= <- _].
  - destruct (call_create_combined_seed _ _ _ _ _ _ _ p); cbn [mbind result_bind];
      discriminate.
  - destruct (generate_eurodreams_numbers seed_int randbelow seed (generator p))
      as [[numbers st]|]; cbn [mbind result_bind]; discriminate.
Qed.

Lemma run_cons (c : call) (calls : list call) (p p' : process state) (r : returned) :
  exec' c p = Ok (r, p') ->
  run' (c :: calls) p = (r :: (run' calls p').1, (run' calls p').2).
Proof. intros H. simpl. rewrite H. now destruct (run _ _ _ _ _ _ _ calls p'). Qed.

Lemma run_raise (c : call) (calls : list call) (p : process state) (e : exception) :
  exec' c p = Raise e -> run' (c :: calls) p = ([], p).
Proof. intros H. simpl. now rewrite H. Qed.

(** Through a run the default list keeps its content, and every chaotic
    value returned is the one of the default values. *)
Lemma run_chaotic_value (v : float) (calls : list call) :
  chaotic_default = Ok v ->
  forall p : process state, y0_object p = default_y0 ->
    (forall x, ChaoticValue x ∈ (run' calls p).1 -> x = v) /\
    y0_object (run' calls p).2 = default_y0.
Proof.
  intros Hv. induction calls as [|c calls IH]; intros p Hp.
  - simpl. split; [|exact Hp]. intros x Hx. inversion Hx.
  - destruct (exec' c p) as [[r p']|e] eqn:Hc.
    + rewrite (run_cons c calls p p' r Hc). simpl.
      assert (y0_object p' = default_y0) as Hp'
        by (rewrite (exec_y0_object c p p' r Hc); exact Hp).
      destruct (IH p' Hp') as [Hvalues Hlist]. split; [|exact Hlist].
      intros x Hx. apply elem_of_cons in Hx as [<-|Hx]; [|now apply Hvalues].
      exact (exec_chaotic_value c p p' v x Hp Hv Hc).
    + rewrite (run_raise c calls p e Hc). simpl. split; [|exact Hp].
      intros x Hx. inversion Hx.
Qed.

(** When the chaotic term is defined no call raises: a run returns once per
    call. *)
Lemma run_length (v : float) (k : Z) (calls : list call) :
  randbelow_range randbelow ->
  chaotic_default = Ok v -> floor (abs v * of_Z 1000000)%F = Some k ->
  forall p : process state, y0_object p = default_y0 ->
    length (run' calls p).1 = length calls.
Proof.
  intros Hrand Hv Hk. induction calls as [|c calls IH]; intros p Hp; [reflexivity|].
  assert (exists r p', exec' c p = Ok (r, p')) as (r & p' & Hc).
  { destruct c as [|t w|seed]; unfold exec.
    - rewrite (call_get_chaotic_value_default p Hp), Hv. cbn [mbind result_bind]. eauto.
    - unfold call_create_combined_seed.
      rewrite (call_get_chaotic_value_default p Hp), Hv. cbn [mbind result_bind].
      rewrite (chaotic_term_floor v k Hk). cbn [mbind result_bind]. eauto.
    - destruct (generate_steps seed_int randbelow Hrand seed (generator p))
        as (sample & rest & _ & -> & _). cbn [mbind result_bind]. eauto. }
  rewrite (run_cons c calls p p' r Hc). simpl. f_equal. apply IH.
  rewrite (exec_y0_object c p p' r Hc). exact Hp.
Qed.

End ProcessFacts.

(** ** The executable instance meets the contracts *)

Lemma euler_steps_shape (func : list float -> float -> result (list float)) :
  forall ts y tprev rows,
    Reference.euler_steps func y tprev ts = Ok rows ->
    length rows = length ts /\ Forall (fun row => length row = length y) rows.
Proof.
  induction ts as [|tnext ts IH]; intros y tprev rows; simpl.
  - intros [= <-]. auto.
  - destruct (func y tprev) as [d|]; cbn [mbind result_bind]; [|discriminate].
    destruct (Nat.eqb_spec (length d) (length y)) as [Hd|]; simpl negb; cbv iota;
      [|discriminate].
    set (y' := zip_with _ y d).
    assert (length y' = length y) as Hy' by (unfold y'; rewrite length_zip_with; lia).
    destruct (Reference.euler_steps func y' tnext ts) as [rows'|] eqn:Hrows';
      cbn [mbind result_bind]; [|discriminate].
    intros [= <-]. destruct (IH _ _ _ Hrows') as [Hlen Hall].
    rewrite Hy' in Hall. simpl. split; [lia|]. constructor; assumption.
Qed.

Lemma euler_steps_returns (func : list float -> float -> result (list float)) (n : nat) :
  (forall y s, length y = n -> exists d, func y s = Ok d /\ length d = n) ->
  forall ts y tprev, length y = n ->
  exists rows, Reference.euler_steps func y tprev ts = Ok rows.
Proof.
  intros Hf. induction ts as [|tnext ts IH]; intros y tprev Hy; simpl.
  - eauto.
  - destruct (Hf y tprev Hy) as (d & -> & Hd). cbn [mbind result_bind].
    destruct (Nat.eqb_spec (length d) (length y)) as [_|]; [|lia]. simpl negb. cbv iota.
    set (y' := zip_with _ y d).
    assert (length y' = n) as Hy' by (unfold y'; rewrite length_zip_with; lia).
    destruct (IH y' tnext Hy') as (rows & ->). cbn [mbind result_bind]. eauto.
Qed.

Lemma euler_odeint_contract : odeint_contract Reference.euler_odeint.
Proof.
  split.
  - intros func y0 t sol. unfold Reference.euler_odeint.
    destruct (monotonic t); simpl negb; cbv iota; [|discriminate].
    destruct t as [|t0 ts]; [intros [= <-]; split; [reflexivity|constructor]|].
    destruct (Reference.euler_steps func y0 t0 ts) as [rows|] eqn:Hrows;
      cbn [mbind result_bind]; [|discriminate].
    intros [= <-]. destruct (euler_steps_shape _ _ _ _ _ Hrows) as [Hlen Hall].
    simpl. split; [lia|]. constructor; [reflexivity|assumption].
  - intros func y0 t Hne Hmono _ Hf. unfold Reference.euler_odeint.
    rewrite Hmono. simpl negb. cbv iota.
    destruct t as [|t0 ts]; [congruence|].
    destruct (euler_steps_returns func (length y0) Hf ts y0 t0 eq_refl) as (rows & ->).
    cbn [mbind result_bind]. eauto.
Qed.

Lemma lcg_randbelow_range : randbelow_range Reference.lcg_randbelow.
Proof. intros n st Hn. simpl. apply Z.mod_pos_bound. assumption. Qed.

(** * The claims *)

(** ** The seed combiner *)

Section SeedClaims.

Variable np_sin np_cos : float -> float.
Variable np_power : float -> float -> float.
Variable odeint :
  (list float -> float -> result (list float)) ->
  list float -> list float -> result (list (list float)).
Variable hash : list byte -> Z.
Hypothesis odeint_ok : odeint_contract odeint.

Local Abbreviation simulate := (simulate_double_pendulum np_sin np_cos np_power odeint).
Local Abbreviation chaotic := (get_chaotic_value_from_pendulum np_sin np_cos np_power odeint).
Local Abbreviation chaotic_default :=
  (get_chaotic_value_from_pendulum_default np_sin np_cos np_power odeint).
Local Abbreviation combined_seed :=
  (create_combined_seed np_sin np_cos np_power odeint hash).

(** C1.  The default call of the extractor returns a value [v], and for every
    time integer [t] and token [w], [create_combined_seed t w] is
    [hash w + t + floor (|v| * 1e6)], the product being the binary64 product:
    the term is not negative, so the truncation of [int()] is the floor.  When
    the product has no floor (an infinite or NaN product) the call raises. *)
Theorem combined_seed_formula :
  exists v, chaotic_default = Ok v /\
    (forall c, floor (abs v * of_Z 1000000)%F = Some c ->
       forall t w, combined_seed t w = Ok (hash w + t + c)) /\
    (floor (abs v * of_Z 1000000)%F = None ->
       forall t w, exists e, combined_seed t w = Raise e).
Proof.
  destruct (chaotic_default_value np_sin np_cos np_power odeint odeint_ok)
    as (theta1 & theta2 & v & _ & _ & _ & _ & Hv).
  exists v. split; [exact Hv|]. split.
  - intros c Hc t w. now apply (combined_seed_value _ _ _ _ _ v).
  - intros Hc t w. destruct (chaotic_term_undefined v Hc) as [e He].
    exists e. unfold create_combined_seed. rewrite Hv. cbn [mbind result_bind].
    now rewrite He.
Qed.

(** C6.  With the token and the chaotic value fixed, two time integers that
    give the same seed are equal, a time integer larger by one gives a seed
    larger by one, and when the chaotic term is defined the 48 draws of the
    main program get 48 pairwise distinct seeds, the one of draw [i] being
    [hash w + (base + i) + c]. *)
Theorem time_seed_injective :
  exists v, chaotic_default = Ok v /\
    (forall w t1 t2 s, combined_seed t1 w = Ok s -> combined_seed t2 w = Ok s -> t1 = t2) /\
    (forall w t s, combined_seed t w = Ok s -> combined_seed (t + 1) w = Ok (s + 1)) /\
    (forall c, floor (abs v * of_Z 1000000)%F = Some c ->
       forall base w, exists seeds,
         draw_seeds np_sin np_cos np_power odeint hash base w = Ok seeds /\
         length seeds = 48%nat /\ NoDup seeds /\
         seeds = (fun i => hash w + (base + i) + c) <$> py_range 0 48).
Proof.
  destruct (chaotic_default_value np_sin np_cos np_power odeint odeint_ok)
    as (theta1 & theta2 & v & _ & _ & _ & _ & Hv).
  exists v. split; [exact Hv|]. split; [|split].
  - intros w t1 t2 s H1 H2.
    destruct (combined_seed_inv _ _ _ _ _ v t1 s w Hv H1) as (c1 & Hc1 & E1).
    destruct (combined_seed_inv _ _ _ _ _ v t2 s w Hv H2) as (c2 & Hc2 & E2).
    rewrite Hc1 in Hc2. injection Hc2 as <-. lia.
  - intros w t s H.
    destruct (combined_seed_inv _ _ _ _ _ v t s w Hv H) as (c & Hc & ->).
    rewrite (combined_seed_value _ _ _ _ _ v c (t + 1) w Hv Hc). f_equal. lia.
  - intros c Hc base w.
    exists ((fun i => hash w + (base + i) + c) <$> py_range 0 48).
    split; [|split; [|split]].
    + unfold draw_seeds, trial_seeds, official_seed.
      rewrite (mapM_result_fmap _ (fun i => hash w + (base + i) + c)).
      * cbn [mbind result_bind].
        rewrite (combined_seed_value _ _ _ _ _ v c (base + 47) w Hv Hc).
        cbn [mbind result_bind]. reflexivity.
      * intros i. now apply (combined_seed_value _ _ _ _ _ v).
    + rewrite length_fmap, py_range_length. reflexivity.
    + apply NoDup_fmap_2_strong; [|apply py_range_NoDup].
      intros x y _ _ Hxy. lia.
    + reflexivity.
Qed.

End SeedClaims.

(** ** The integrator *)

Section IntegratorClaims.

Variable np_sin np_cos : float -> float.
Variable np_power : float -> float -> float.
Variable odeint :
  (list float -> float -> result (list float)) ->
  list float -> list float -> result (list (list float)).
Hypothesis odeint_ok : odeint_contract odeint.

Local Abbreviation simulate := (simulate_double_pendulum np_sin np_cos np_power odeint).
Local Abbreviation chaotic := (get_chaotic_value_from_pendulum np_sin np_cos np_power odeint).

(** C5, as the code has it.  The integrator does not validate its
    parameters: for every length and mass, zero and negative ones included,
    and every duration and step, whenever [arange] returns a grid that is not
    empty and that [odeint] accepts, it returns a trajectory of one sample of
    each angle per grid time; a division by a zero length is an IEEE
    division.  A zero step raises [ZeroDivisionError] while the grid is
    built, before the integration. *)
Theorem simulate_does_not_validate (L1 L2 m1 m2 tmax dt : float) (y0 : list float) :
  length y0 = 4%nat ->
  (forall t, np_arange zero tmax dt = Ok t -> t <> [] -> monotonic t = true ->
     exists theta1 theta2,
       simulate L1 L2 m1 m2 tmax dt y0 = Ok (theta1, theta2) /\
       length theta1 = length t /\ length theta2 = length t) /\
  (is_zero dt = true ->
     simulate L1 L2 m1 m2 tmax dt y0 = Raise ZeroDivisionError).
Proof.
  intros Hy0. split.
  - intros t Hgrid Hne Hmono.
    exact (simulate_on_grid np_sin np_cos np_power odeint odeint_ok
             L1 L2 m1 m2 tmax dt y0 t Hy0 Hgrid Hne Hmono).
  - intros Hz. apply simulate_grid_raise.
    change ZeroDivisionError with (arange_error ZeroDivisionError).
    apply np_arange_raise. unfold arange_calc_length. now rewrite Hz.
Qed.

(** C8, as the code has it.  For a positive duration and a positive, smaller
    step, a grid that [arange] returns and that is not empty is
    [0, dt, fl(2 dt), fl(3 dt), ...] with [max 1 q] times, [q] being the
    ceiling of the rounded quotient [tmax / dt]; a trajectory that the
    integrator returns is two sequences of that same length, one sample per
    grid time, and the integrator returns one when [odeint] accepts the grid.
    For the default arguments the grid is returned, with 1000 times, all
    below [tmax], and so is a trajectory of 1000 samples. *)
Theorem trajectory_follows_grid :
  (forall (L1 L2 m1 m2 tmax dt : float) (y0 t : list float),
     gt_zero tmax -> gt_zero dt -> ltb dt tmax = true ->
     np_arange zero tmax dt = Ok t -> t <> [] ->
     exists q, ceil (tmax / dt)%F = Some q /\
       let n := Z.to_nat (Z.max 1 q) in
       t = grid_times dt n /\
       length t = n /\
       (forall theta1 theta2,
          simulate L1 L2 m1 m2 tmax dt y0 = Ok (theta1, theta2) ->
          length theta1 = n /\ length theta2 = n) /\
       (length y0 = 4%nat -> monotonic t = true ->
        exists theta1 theta2, simulate L1 L2 m1 m2 tmax dt y0 = Ok (theta1, theta2))) /\
  ceil (default_tmax / default_dt)%F = Some 1000 /\
  np_arange zero default_tmax default_dt = Ok (grid_times default_dt 1000) /\
  forallb (fun t => ltb t default_tmax) (grid_times default_dt 1000) = true /\
  exists theta1 theta2,
    simulate default_L1 default_L2 default_m1 default_m2 default_tmax default_dt default_y0
      = Ok (theta1, theta2) /\
    length theta1 = 1000%nat /\ length theta2 = 1000%nat.
Proof.
  split; [|split; [|split; [|split]]].
  - intros L1 L2 m1 m2 tmax dt y0 t Ht Hd _ Hgrid Hne.
    destruct (np_arange_inv tmax dt t Ht Hd Hgrid) as (q & Hq & [[_ ->]|(_ & _ & Heq)]);
      [congruence|].
    exists q. split; [exact Hq|]. intros n. fold n in Heq.
    assert (length t = n) as Hlen
      by (rewrite Heq; apply grid_times_length; unfold n; lia).
    split; [exact Heq|]. split; [exact Hlen|]. split.
    + intros theta1 theta2 Hsim.
      destruct (simulate_returns_grid np_sin np_cos np_power odeint odeint_ok
                  _ _ _ _ _ _ _ _ _ Hsim) as (t' & Hgrid' & Hl1 & Hl2).
      rewrite Hgrid in Hgrid'. injection Hgrid' as <-. lia.
    + intros Hy0 Hmono.
      destruct (simulate_on_grid np_sin np_cos np_power odeint odeint_ok
                  L1 L2 m1 m2 tmax dt y0 t Hy0 Hgrid Hne Hmono)
        as (theta1 & theta2 & Hsim & _ & _). eauto.
  - vm_compute. reflexivity.
  - exact default_grid.
  - exact default_grid_below_tmax.
  - destruct (chaotic_default_value np_sin np_cos np_power odeint odeint_ok)
      as (theta1 & theta2 & v & Hsim & Hl1 & Hl2 & _). eauto.
Qed.

(** C10, as the code has it.  For a positive duration and a positive step
    whose rounded quotient [tmax / dt] is not [2^63], a grid that [arange]
    returns starts with 0, a trajectory that the integrator returns has a
    non-empty [theta2] whose last element is what the extractor returns, so
    that the extractor raises only what the integrator raises, and it returns
    a value whenever [arange] returns a grid that [odeint] accepts.  When the
    quotient is [2^63], [arange] returns the empty grid and the extractor
    returns no value. *)
Theorem last_sample_defined (L1 L2 m1 m2 tmax dt : float) (y0 : list float) :
  gt_zero tmax -> gt_zero dt ->
  (ceil (tmax / dt)%F <> Some (NPY_MAX_INTP + 1) ->
   (forall t, np_arange zero tmax dt = Ok t -> exists rest, t = zero :: rest) /\
   (forall theta1 theta2,
      simulate L1 L2 m1 m2 tmax dt y0 = Ok (theta1, theta2) ->
      theta2 <> [] /\
      exists v, last theta2 = Some v /\ chaotic L1 L2 m1 m2 tmax dt y0 = Ok v) /\
   (forall e, chaotic L1 L2 m1 m2 tmax dt y0 = Raise e ->
      simulate L1 L2 m1 m2 tmax dt y0 = Raise e) /\
   (forall t, length y0 = 4%nat ->
      np_arange zero tmax dt = Ok t -> monotonic t = true ->
      exists v, chaotic L1 L2 m1 m2 tmax dt y0 = Ok v)) /\
  (ceil (tmax / dt)%F = Some (NPY_MAX_INTP + 1) ->
   np_arange zero tmax dt = Ok [] /\
   (forall theta1 theta2,
      simulate L1 L2 m1 m2 tmax dt y0 = Ok (theta1, theta2) ->
      chaotic L1 L2 m1 m2 tmax dt y0 = Raise IndexError) /\
   (forall v, chaotic L1 L2 m1 m2 tmax dt y0 <> Ok v)).
Proof.
  intros Ht Hd. split.
  - intros Hq.
    assert (Hhead : forall t, np_arange zero tmax dt = Ok t -> exists rest, t = zero :: rest)
      by (intros t; apply np_arange_nonempty; assumption).
    assert (Hret : forall theta1 theta2,
       simulate L1 L2 m1 m2 tmax dt y0 = Ok (theta1, theta2) ->
       theta2 <> [] /\
       exists v, last theta2 = Some v /\ chaotic L1 L2 m1 m2 tmax dt y0 = Ok v).
    { intros theta1 theta2 Hsim.
      destruct (simulate_returns_grid np_sin np_cos np_power odeint odeint_ok
                  _ _ _ _ _ _ _ _ _ Hsim) as (t & Hgrid & _ & Hl2).
      destruct (Hhead t Hgrid) as [rest ->].
      assert (theta2 <> []) as Hne by (intros ->; discriminate).
      split; [exact Hne|].
      exact (chaotic_of_trajectory np_sin np_cos np_power odeint _ _ _ _ _ _ _ _ _ Hsim Hne). }
    split; [exact Hhead|split; [exact Hret|split]].
    + intros e He.
      destruct (simulate L1 L2 m1 m2 tmax dt y0) as [[theta1 theta2]|e'] eqn:Hsim.
      * destruct (Hret _ _ eq_refl) as (_ & v & _ & Hv). congruence.
      * unfold get_chaotic_value_from_pendulum in He. rewrite Hsim in He.
        cbn [mbind result_bind] in He. congruence.
    + intros t Hy0 Hgrid Hmono.
      destruct (simulate_on_grid np_sin np_cos np_power odeint odeint_ok
                  L1 L2 m1 m2 tmax dt y0 t Hy0 Hgrid)
        as (theta1 & theta2 & Hsim & _ & _); [|exact Hmono|].
      { destruct (Hhead t Hgrid) as [rest ->]. discriminate. }
      destruct (Hret _ _ Hsim) as (_ & v & _ & Hv). eauto.
  - intros Hq.
    assert (np_arange zero tmax dt = Ok []) as Hgrid.
    { rewrite (np_arange_value tmax dt Ht Hd), Hq.
      rewrite Z.ltb_irrefl, Z.eqb_refl. reflexivity. }
    split; [exact Hgrid|].
    destruct (empty_grid_no_value np_sin np_cos np_power odeint odeint_ok
                L1 L2 m1 m2 tmax dt y0 Hgrid) as [Hret Hnone].
    split; [|exact Hnone].
    intros theta1 theta2 Hsim. now destruct (Hret theta1 theta2 Hsim) as (_ & _ & ?).
Qed.

End IntegratorClaims.

(** ** The extractor in a run of the process *)

Section ExtractorClaims.

Variable np_sin np_cos : float -> float.
Variable np_power : float -> float -> float.
Variable odeint :
  (list float -> float -> result (list float)) ->
  list float -> list float -> result (list (list float)).
Variable hash : list byte -> Z.
Context {state : Type}.
Variable seed_int : Z -> state.
Variable randbelow : Z -> state -> Z * state.
Hypothesis odeint_ok : odeint_contract odeint.


End ExtractorClaims.

(** ** The sampler *)

Section SamplerClaims.

Context {state : Type}.
Variable seed_int : Z -> state.
Variable randbelow : Z -> state -> Z * state.

(** C3.  Two calls with equal seeds return the same draw, whatever the state
    of the generator before each call. *)
Theorem draw_deterministic (seed1 seed2 : Z) (st1 st2 : state) :
  seed1 = seed2 -> generate_eurodreams_numbers seed_int randbelow seed1 st1
    = generate_eurodreams_numbers seed_int randbelow seed2 st2.
Proof. intros ->. reflexivity. Qed.

Hypothesis randbelow_ok : randbelow_range randbelow.

(** C2.  For every seed the call returns six main numbers, pairwise distinct,
    each in [[1, 40]], in strictly ascending order, and one bonus number in
    [[1, 5]]. *)
Theorem draw_result_wellformed (seed : Z) (st : state) :
  exists main bonus st',
    generate_eurodreams_numbers seed_int randbelow seed st = Ok ((main, [bonus]), st') /\
    length main = 6%nat /\
    NoDup main /\
    Forall (fun x => 1 <= x <= 40) main /\
    StronglySorted Z.lt main /\
    1 <= bonus <= 5.
Proof.
  destruct (generate_steps seed_int randbelow randbelow_ok seed st)
    as (sample & rest & _ & Hgen & Hlen & Hperm).
  destruct (sample_distinct_in_range sample rest Hperm) as [Hnd Hin].
  pose proof (sorted_Permutation sample) as Hs.
  assert (NoDup (sorted sample)) as Hnd' by now rewrite Hs.
  eexists _, _, _. split; [exact Hgen|].
  split; [now rewrite Hs|]. split; [exact Hnd'|]. split; [now rewrite Hs|].
  split; [apply StronglySorted_le_lt; [exact Hnd'|apply sorted_Sorted]|].
  pose proof (randbelow_ok 5 (snd (randbelow_seq randbelow (sample_bounds 40 6) (seed_int seed)))).
  lia.
Qed.

(** C7.  The six selections are made first, from the seeded state, by six
    calls of [_randbelow] with bounds 40, 39, ..., 35; the bonus number is
    drawn next, from the state that these calls left. *)
Theorem bonus_after_main (seed : Z) (st : state) :
  let st0 := seed_int seed in
  let st6 := snd (randbelow_seq randbelow [40; 39; 38; 37; 36; 35] st0) in
  exists sample,
    random_sample randbelow (py_range 1 41) 6 st0 = Ok (sample, st6) /\
    generate_eurodreams_numbers seed_int randbelow seed st
      = Ok ((sorted sample, [1 + fst (randbelow 5 st6)]), snd (randbelow 5 st6)).
Proof.
  intros st0 st6.
  destruct (generate_steps seed_int randbelow randbelow_ok seed st)
    as (sample & rest & Hsample & Hgen & _ & _).
  exists sample. split; assumption.
Qed.

(** C9.  The second component of the result is a list of length one, next to
    a list of six main numbers. *)
Theorem bonus_is_singleton (seed : Z) (st : state) :
  exists (main bonus : list Z) st',
    generate_eurodreams_numbers seed_int randbelow seed st = Ok ((main, bonus), st') /\
    length main = 6%nat /\ length bonus = 1%nat.
Proof.
  destruct (generate_steps seed_int randbelow randbelow_ok seed st)
    as (sample & rest & _ & Hgen & Hlen & _).
  eexists _, _, _. split; [exact Hgen|]. split; [|reflexivity].
  now rewrite (sorted_Permutation sample).
Qed.

End SamplerClaims.

(** The product of the seed is the rounded one: the binary64 number nearest
    to 0.3 is below 0.3 and its exact product by [10^6] is below 300000, but
    the binary64 product is 300000. *)
Example chaotic_term_is_rounded :
  decimal 3 10 = S754_finite false 5404319552844595 (-54) /\
  floor_scaled (5404319552844595 * 1000000) (-54) = 299999 /\
  py_int (abs (decimal 3 10) * of_Z 1000000)%F = Ok 300000.
Proof. vm_compute. auto. Qed.

Example draw_example :
  Reference.draw 12345 0 = Ok (([3; 7; 13; 15; 17; 30], [3]), 1293799192).
Proof. vm_compute. reflexivity. Qed.

(** * The claims on concrete inputs

    The theorems above are applied to the executable instance, and the
    claims that the code does not meet are evaluated where they fail. *)

Lemma combined_seed_formula_witness :
  exists v, Reference.chaotic_value = Ok v /\
    (forall c, floor (abs v * of_Z 1000000)%F = Some c ->
       forall t w, Reference.combined_seed t w = Ok (Reference.fnv1a w + t + c)) /\
    (floor (abs v * of_Z 1000000)%F = None ->
       forall t w, exists e, Reference.combined_seed t w = Raise e).
Proof.
  exact (combined_seed_formula Reference.poly_sin Reference.poly_cos
           Reference.square_power Reference.euler_odeint Reference.fnv1a
           euler_odeint_contract).
Defined.


Lemma time_seed_injective_witness :
  exists v, Reference.chaotic_value = Ok v /\
    (forall w t1 t2 s,
       Reference.combined_seed t1 w = Ok s -> Reference.combined_seed t2 w = Ok s ->
       t1 = t2) /\
    (forall w t s,
       Reference.combined_seed t w = Ok s -> Reference.combined_seed (t + 1) w = Ok (s + 1)) /\
    (forall c, floor (abs v * of_Z 1000000)%F = Some c ->
       forall base w, exists seeds,
         Reference.seeds base w = Ok seeds /\
         length seeds = 48%nat /\ NoDup seeds /\
         seeds = (fun i => Reference.fnv1a w + (base + i) + c) <$> py_range 0 48).
Proof.
  exact (time_seed_injective Reference.poly_sin Reference.poly_cos
           Reference.square_power Reference.euler_odeint Reference.fnv1a
           euler_odeint_contract).
Defined.

(** A zero length on a grid of four samples. *)
Lemma simulate_does_not_validate_witness :
  exists theta1 theta2,
    Reference.simulate zero (of_Z 1) (of_Z 1) (of_Z 1) (of_Z 1) (decimal 1 4) default_y0
      = Ok (theta1, theta2) /\
    length theta1 = length (grid_times (decimal 1 4) 4) /\
    length theta2 = length (grid_times (decimal 1 4) 4).
Proof.
  destruct (simulate_does_not_validate Reference.poly_sin Reference.poly_cos
              Reference.square_power Reference.euler_odeint euler_odeint_contract
              zero (of_Z 1) (of_Z 1) (of_Z 1) (of_Z 1) (decimal 1 4) default_y0 eq_refl)
    as [Hreturns _].
  apply (Hreturns (grid_times (decimal 1 4) 4)); vm_compute;
    solve [reflexivity | discriminate].
Defined.

(** C5 fails on the code: with [L1 = 0], and with [m1 = 0], the integrator
    returns a trajectory ([tmax = 1], [dt = 0.25], the default initial
    state, all other lengths and masses 1). *)
Lemma zero_length_returns_trajectory :
  (exists theta1 theta2,
     Reference.simulate zero (of_Z 1) (of_Z 1) (of_Z 1) (of_Z 1) (decimal 1 4) default_y0
       = Ok (theta1, theta2) /\
     length theta1 = 4%nat /\ length theta2 = 4%nat) /\
  (exists theta1 theta2,
     Reference.simulate (of_Z 1) (of_Z 1) zero (of_Z 1) (of_Z 1) (decimal 1 4) default_y0
       = Ok (theta1, theta2) /\
     length theta1 = 4%nat /\ length theta2 = 4%nat).
Proof. split; vm_compute; eexists _, _; repeat split. Qed.

Lemma trajectory_follows_grid_witness :
  exists q, ceil (of_Z 1 / decimal 1 4)%F = Some q /\
    let n := Z.to_nat (Z.max 1 q) in
    grid_times (decimal 1 4) 4 = grid_times (decimal 1 4) n /\
    length (grid_times (decimal 1 4) 4) = n /\
    (forall theta1 theta2,
       Reference.simulate (of_Z 1) (of_Z 1) (of_Z 1) (of_Z 1) (of_Z 1) (decimal 1 4) default_y0
         = Ok (theta1, theta2) ->
       length theta1 = n /\ length theta2 = n) /\
    (length default_y0 = 4%nat -> monotonic (grid_times (decimal 1 4) 4) = true ->
     exists theta1 theta2,
       Reference.simulate (of_Z 1) (of_Z 1) (of_Z 1) (of_Z 1) (of_Z 1) (decimal 1 4) default_y0
         = Ok (theta1, theta2)).
Proof.
  destruct (trajectory_follows_grid Reference.poly_sin Reference.poly_cos
              Reference.square_power Reference.euler_odeint euler_odeint_contract)
    as [Hgrid _].
  apply (Hgrid (of_Z 1) (of_Z 1) (of_Z 1) (of_Z 1) (of_Z 1) (decimal 1 4) default_y0
           (grid_times (decimal 1 4) 4));
    vm_compute; solve [reflexivity | discriminate].
Defined.

(** C8 fails on the code.  With [tmax = 0.1 + 0.2] and [dt = 0.1] the rounded
    quotient is above 3, the grid has four samples and the last one is at
    [tmax] itself.  With [tmax = 0.9] and [dt = 0.3] the rounded quotient is
    3, the grid stops at [0.6], and [fl(3 * 0.3)], which is below [tmax], is
    not sampled. *)
Lemma grid_misses_half_open_interval :
  let dt := decimal 1 10 in
  let tmax := (decimal 1 10 + decimal 2 10)%F in
  let dt' := decimal 3 10 in
  let tmax' := decimal 9 10 in
  (ltb zero tmax = true /\ ltb zero dt = true /\ ltb dt tmax = true /\
   np_arange zero tmax dt = Ok [zero; dt; (of_Z 2 * dt)%F; tmax] /\
   exists theta1 theta2,
     Reference.simulate (of_Z 1) (of_Z 1) (of_Z 1) (of_Z 1) tmax dt default_y0
       = Ok (theta1, theta2) /\
     length theta1 = 4%nat /\ length theta2 = 4%nat) /\
  (ltb zero tmax' = true /\ ltb zero dt' = true /\ ltb dt' tmax' = true /\
   np_arange zero tmax' dt' = Ok [zero; dt'; (of_Z 2 * dt')%F] /\
   ltb (of_Z 3 * dt')%F tmax' = true).
Proof. vm_compute. repeat split. eexists _, _. repeat split. Qed.

Lemma last_sample_defined_witness :
  (forall t, np_arange zero (of_Z 1) (decimal 1 4) = Ok t -> exists rest, t = zero :: rest) /\
  (forall theta1 theta2,
     Reference.simulate (of_Z 1) (of_Z 1) (of_Z 1) (of_Z 1) (of_Z 1) (decimal 1 4) default_y0
       = Ok (theta1, theta2) ->
     theta2 <> [] /\
     exists v, last theta2 = Some v /\
       Reference.chaotic (of_Z 1) (of_Z 1) (of_Z 1) (of_Z 1) (of_Z 1) (decimal 1 4) default_y0
         = Ok v) /\
  (forall e,
     Reference.chaotic (of_Z 1) (of_Z 1) (of_Z 1) (of_Z 1) (of_Z 1) (decimal 1 4) default_y0
       = Raise e ->
     Reference.simulate (of_Z 1) (of_Z 1) (of_Z 1) (of_Z 1) (of_Z 1) (decimal 1 4) default_y0
       = Raise e) /\
  (forall t, length default_y0 = 4%nat ->
     np_arange zero (of_Z 1) (decimal 1 4) = Ok t -> monotonic t = true ->
     exists v,
       Reference.chaotic (of_Z 1) (of_Z 1) (of_Z 1) (of_Z 1) (of_Z 1) (decimal 1 4) default_y0
         = Ok v).
Proof.
  assert (gt_zero (of_Z 1)) as Ht by (vm_compute; reflexivity).
  assert (gt_zero (decimal 1 4)) as Hd by (vm_compute; reflexivity).
  destruct (last_sample_defined Reference.poly_sin Reference.poly_cos
              Reference.square_power Reference.euler_odeint euler_odeint_contract
              (of_Z 1) (of_Z 1) (of_Z 1) (of_Z 1) (of_Z 1) (decimal 1 4) default_y0 Ht Hd)
    as [Hdefined _].
  apply Hdefined. vm_compute. discriminate.
Defined.

(** C10 fails on the code.  With [tmax = 2^63] and [dt = 1], both positive,
    the quotient is [2^63]: it passes the range test of [arange], its
    conversion to [npy_intp] is negative, and the grid is empty: it does not
    contain 0.  The integrator returns two empty sequences and the access of
    the extractor to the last sample raises [IndexError]. *)
Lemma huge_quotient_empty_grid :
  let tmax := of_Z (2 ^ 63) in
  let dt := of_Z 1 in
  ltb zero tmax = true /\ ltb zero dt = true /\
  ceil (tmax / dt)%F = Some (2 ^ 63) /\
  arange_calc_length zero tmax dt = Ok NPY_MIN_INTP /\
  np_arange zero tmax dt = Ok [] /\
  Reference.simulate (of_Z 1) (of_Z 1) (of_Z 1) (of_Z 1) tmax dt default_y0 = Ok ([], []) /\
  Reference.chaotic (of_Z 1) (of_Z 1) (of_Z 1) (of_Z 1) tmax dt default_y0
    = Raise IndexError.
Proof. vm_compute. repeat split. Qed.

Lemma draw_deterministic_witness :
  Reference.draw 20240101 0 = Reference.draw 20240101 12345.
Proof.
  exact (draw_deterministic Reference.lcg_seed Reference.lcg_randbelow
           20240101 20240101 0 12345 eq_refl).
Defined.

Lemma draw_result_wellformed_witness :
  exists main bonus st',
    Reference.draw 20240101 0 = Ok ((main, [bonus]), st') /\
    length main = 6%nat /\
    NoDup main /\
    Forall (fun x => 1 <= x <= 40) main /\
    StronglySorted Z.lt main /\
    1 <= bonus <= 5.
Proof.
  exact (draw_result_wellformed Reference.lcg_seed Reference.lcg_randbelow
           lcg_randbelow_range 20240101 0).
Defined.

Lemma bonus_after_main_witness :
  let st0 := Reference.lcg_seed 20240101 in
  let st6 := snd (randbelow_seq Reference.lcg_randbelow [40; 39; 38; 37; 36; 35] st0) in
  exists sample,
    random_sample Reference.lcg_randbelow (py_range 1 41) 6 st0 = Ok (sample, st6) /\
    Reference.draw 20240101 0
      = Ok ((sorted sample, [1 + fst (Reference.lcg_randbelow 5 st6)]),
            snd (Reference.lcg_randbelow 5 st6)).
Proof.
  exact (bonus_after_main Reference.lcg_seed Reference.lcg_randbelow
           lcg_randbelow_range 20240101 0).
Defined.

Lemma bonus_is_singleton_witness :
  exists (main bonus : list Z) st',
    Reference.draw 20240101 0 = Ok ((main, bonus), st') /\
    length main = 6%nat /\ length bonus = 1%nat.
Proof.
  exact (bonus_is_singleton Reference.lcg_seed Reference.lcg_randbelow
           lcg_randbelow_range 20240101 0).
Defined.

(** * Further properties of the program *)

(** ** The date of the next draw *)

Lemma weekday_range (d : datetime) : 0 <= weekday d < 7.
Proof. unfold weekday. apply Z.mod_pos_bound. lia. Qed.

Lemma next_weekday_value (today : datetime) (target_weekday : Z) :
  0 <= target_weekday <= 6 ->
  1 <= ordinal today -> ordinal today + 7 <= MAXORDINAL ->
  let days_ahead :=
    if target_weekday - weekday today <=? 0
    then target_weekday - weekday today + 7
    else target_weekday - weekday today in
  1 <= days_ahead <= 7 /\
  next_weekday today target_weekday
    = Ok {| ordinal := ordinal today + days_ahead;
            hour := 20; minute := 30; second := 0; microsecond := 0 |}.
Proof.
  intros Ht Hlo Hhi days_ahead. pose proof (weekday_range today) as Hwd.
  assert (1 <= days_ahead <= 7) as Hd.
  { unfold days_ahead. destruct (Z.leb_spec (target_weekday - weekday today) 0); lia. }
  split; [exact Hd|].
  unfold next_weekday. fold days_ahead. unfold timedelta_days.
  destruct (Z.leb_spec (-999999999) days_ahead); [|lia].
  destruct (Z.leb_spec days_ahead 999999999); [|lia].
  cbn [andb mbind result_bind]. unfold datetime_add.
  destruct (Z.leb_spec 1 (ordinal today + days_ahead)); [|lia].
  destruct (Z.leb_spec (ordinal today + days_ahead) MAXORDINAL); [|lia].
  reflexivity.
Qed.

(** X1.  For a target day 0 to 6 and a date at least a week before the end of
    year 9999, [next_weekday] returns a date 1 to 7 days after today that
    falls on the target day, at 20:30:00 sharp, and later than now. *)
Theorem next_weekday_on_target (today : datetime) (target_weekday : Z) :
  0 <= target_weekday <= 6 ->
  valid_datetime today -> ordinal today + 7 <= MAXORDINAL ->
  exists d,
    next_weekday today target_weekday = Ok d /\
    weekday d = target_weekday /\
    1 <= ordinal d - ordinal today <= 7 /\
    (hour d, minute d, second d, microsecond d) = (20, 30, 0, 0) /\
    valid_datetime d /\
    datetime_lt today d.
Proof.
  intros Ht Hv Hhi. destruct Hv as (Hord & Hh & Hm & Hs & Hus).
  destruct (next_weekday_value today target_weekday Ht) as [Hd Heq]; [lia|lia|].
  eexists. split; [exact Heq|]. cbn [ordinal hour minute second microsecond].
  pose proof (weekday_range today) as Hwd.
  split; [|split; [lia|split; [reflexivity|split]]].
  - unfold weekday in *. cbn [ordinal].
    destruct (Z.leb_spec (target_weekday - (ordinal today + 6) mod 7) 0);
      Z.div_mod_to_equations; lia.
  - unfold valid_datetime. cbn [ordinal hour minute second microsecond]. lia.
  - left. cbn [ordinal]. lia.
Qed.

(** X2.  The date returned is the first one after today that falls on the
    target day: no day strictly between today and it does. *)
Theorem next_weekday_earliest (today d : datetime) (target_weekday : Z) :
  0 <= target_weekday <= 6 ->
  1 <= ordinal today -> ordinal today + 7 <= MAXORDINAL ->
  next_weekday today target_weekday = Ok d ->
  forall day : datetime,
    ordinal today < ordinal day < ordinal d -> weekday day <> target_weekday.
Proof.
  intros Ht Hlo Hhi Hnext day Hbetween.
  destruct (next_weekday_value today target_weekday Ht Hlo Hhi) as [Hd Heq].
  rewrite Heq in Hnext. injection Hnext as <-. cbn [ordinal] in Hbetween.
  unfold weekday in *.
  destruct (Z.leb_spec (target_weekday - (ordinal today + 6) mod 7) 0);
    Z.div_mod_to_equations; lia.
Qed.

(** X3.  Today is never the answer: when today already falls on the target
    day the date returned is a week away, whatever the time of day (before
    20:30 too), and it is a week away in that case only. *)
Theorem next_weekday_skips_today (today d : datetime) (target_weekday : Z) :
  0 <= target_weekday <= 6 ->
  1 <= ordinal today -> ordinal today + 7 <= MAXORDINAL ->
  next_weekday today target_weekday = Ok d ->
  ordinal d <> ordinal today /\
  (ordinal d = ordinal today + 7 <-> weekday today = target_weekday).
Proof.
  intros Ht Hlo Hhi Hnext.
  destruct (next_weekday_value today target_weekday Ht Hlo Hhi) as [Hd Heq].
  rewrite Heq in Hnext. injection Hnext as <-. cbn [ordinal].
  pose proof (weekday_range today) as Hwd.
  destruct (Z.leb_spec (target_weekday - weekday today) 0); lia.
Qed.

(** X4.  For a valid date the call fails exactly when the next target day
    would be after 31 December 9999, and then with [OverflowError]. *)
Theorem next_weekday_overflow (today : datetime) (target_weekday : Z) :
  0 <= target_weekday <= 6 ->
  valid_datetime today ->
  (MAXORDINAL < ordinal today + ((target_weekday - weekday today - 1) mod 7 + 1) ->
   next_weekday today target_weekday = Raise OverflowError) /\
  (forall e, next_weekday today target_weekday = Raise e ->
     e = OverflowError /\
     MAXORDINAL < ordinal today + ((target_weekday - weekday today - 1) mod 7 + 1)).
Proof.
  intros Ht (Hord & _). pose proof (weekday_range today) as Hwd.
  unfold next_weekday, timedelta_days.
  set (days_ahead := if target_weekday - weekday today <=? 0
                     then target_weekday - weekday today + 7
                     else target_weekday - weekday today).
  assert (days_ahead = (target_weekday - weekday today - 1) mod 7 + 1) as <-.
  { unfold days_ahead. destruct (Z.leb_spec (target_weekday - weekday today) 0);
      Z.div_mod_to_equations; lia. }
  assert (1 <= days_ahead <= 7) as Hd.
  { unfold days_ahead. destruct (Z.leb_spec (target_weekday - weekday today) 0); lia. }
  destruct (Z.leb_spec (-999999999) days_ahead); [|lia].
  destruct (Z.leb_spec days_ahead 999999999); [|lia].
  cbn [andb mbind result_bind]. unfold datetime_add.
  destruct (Z.leb_spec 1 (ordinal today + days_ahead)); [|lia].
  destruct (Z.leb_spec (ordinal today + days_ahead) MAXORDINAL);
    cbn [andb mbind result_bind]; split.
  - lia.
  - discriminate.
  - reflexivity.
  - intros e [= <-]. split; [reflexivity|lia].
Qed.

(** ** The name of the day *)

Lemma weekdays_lookup (day_name abbreviation : string) :
  weekdays !! day_name = Some abbreviation <->
  (day_name, abbreviation) ∈
    [("Monday", "Lun"); ("Tuesday", "Mar"); ("Wednesday", "Mer"); ("Thursday", "Jeu");
     ("Friday", "Ven"); ("Saturday", "Sam"); ("Sunday", "Dim")]%string.
Proof.
  unfold weekdays. symmetry. apply elem_of_list_to_map.
  apply (bool_decide_unpack _). vm_compute. exact I.
Qed.

(** X5.  [get_weekday] answers ["Inconnu"] exactly for the names that are not
    one of the seven English day names, capital first: a name in another
    language or another case is unknown. *)
Theorem get_weekday_unknown (day_name : string) :
  get_weekday day_name = "Inconnu"%string <->
  day_name ∉ ["Monday"; "Tuesday"; "Wednesday"; "Thursday"; "Friday"; "Saturday";
              "Sunday"]%string.
Proof.
  unfold get_weekday. destruct (weekdays !! day_name) as [abbreviation|] eqn:Hlook.
  - apply weekdays_lookup in Hlook. cbn [default].
    repeat (apply elem_of_cons in Hlook as [[= -> ->]|Hlook];
            [split; [discriminate|intros Hn; exfalso; apply Hn;
                                   apply list_elem_of_In; simpl; tauto]|]).
    inversion Hlook.
  - cbn [default]. split; [intros _|reflexivity].
    intros Hin. assert (is_Some (weekdays !! day_name)) as [x Hx]; [|congruence].
    repeat (apply elem_of_cons in Hin as [->|Hin]; [vm_compute; eauto|]).
    inversion Hin.
Qed.

Lemma c_locale_day_name_cases (d : datetime) :
  (weekday d = 0 /\ c_locale_day_name d = "Monday"%string) \/
  (weekday d = 1 /\ c_locale_day_name d = "Tuesday"%string) \/
  (weekday d = 2 /\ c_locale_day_name d = "Wednesday"%string) \/
  (weekday d = 3 /\ c_locale_day_name d = "Thursday"%string) \/
  (weekday d = 4 /\ c_locale_day_name d = "Friday"%string) \/
  (weekday d = 5 /\ c_locale_day_name d = "Saturday"%string) \/
  (weekday d = 6 /\ c_locale_day_name d = "Sunday"%string).
Proof.
  pose proof (weekday_range d) as Hwd. unfold c_locale_day_name.
  assert (weekday d = 0 \/ weekday d = 1 \/ weekday d = 2 \/ weekday d = 3 \/
          weekday d = 4 \/ weekday d = 5 \/ weekday d = 6) as Hcases by lia.
  repeat destruct Hcases as [Hcases|Hcases]; rewrite Hcases; tauto.
Qed.

(** X6.  With the day names of the C locale the abbreviation is never
    ["Inconnu"], and two dates get the same abbreviation exactly when they
    fall on the same day of the week. *)
Theorem get_weekday_c_locale (d d' : datetime) :
  get_weekday (c_locale_day_name d) <> "Inconnu"%string /\
  (get_weekday (c_locale_day_name d) = get_weekday (c_locale_day_name d') <->
   weekday d = weekday d').
Proof.
  pose proof (c_locale_day_name_cases d) as H.
  pose proof (c_locale_day_name_cases d') as H'.
  repeat destruct H as [H|H]; destruct H as [-> ->];
    (split; [vm_compute; discriminate|]);
    repeat destruct H' as [H'|H']; destruct H' as [-> ->];
    vm_compute; split; intros; try reflexivity; discriminate.
Qed.

Lemma choose_target_weekday_cases (day_of_week : string) (target_weekday : Z) :
  choose_target_weekday day_of_week = Some target_weekday ->
  (day_of_week = "lundi"%string /\ target_weekday = 0) \/
  (day_of_week = "jeudi"%string /\ target_weekday = 3).
Proof.
  unfold choose_target_weekday.
  destruct (decide (day_of_week ∈ ["lundi"; "jeudi"]%string)) as [Hin|]; [|discriminate].
  destruct (decide (day_of_week = "lundi"%string)) as [->|Hne]; intros [= <-]; [auto|].
  right. split; [|reflexivity].
  apply elem_of_cons in Hin as [?|Hin]; [contradiction|].
  apply elem_of_cons in Hin as [?|Hin]; [assumption|inversion Hin].
Qed.

(** X7.  An answer other than [lundi] and [jeudi] ends the program; for these
    two the date announced for the next draw is 1 to 7 days ahead and falls on
    the day chosen: its abbreviation in the C locale is ["Lun"] for [lundi]
    and ["Jeu"] for [jeudi]. *)
Theorem next_draw_on_chosen_day (day_of_week : string) (today : datetime) :
  valid_datetime today -> ordinal today + 7 <= MAXORDINAL ->
  (choose_target_weekday day_of_week = None <->
   day_of_week <> "lundi"%string /\ day_of_week <> "jeudi"%string) /\
  (forall target_weekday,
     choose_target_weekday day_of_week = Some target_weekday ->
     exists d,
       next_weekday today target_weekday = Ok d /\
       1 <= ordinal d - ordinal today <= 7 /\
       get_weekday (c_locale_day_name d)
         = (if decide (day_of_week = "lundi") then "Lun" else "Jeu")%string).
Proof.
  intros Hv Hhi. split.
  - unfold choose_target_weekday.
    destruct (decide (day_of_week ∈ ["lundi"; "jeudi"]%string)) as [Hin|Hnin].
    + split; [discriminate|]. intros [H1 H2]. exfalso.
      apply elem_of_cons in Hin as [?|Hin]; [contradiction|].
      apply elem_of_cons in Hin as [?|Hin]; [contradiction|inversion Hin].
    + split; [|reflexivity]. intros _.
      split; intros ->; apply Hnin; apply list_elem_of_In; simpl; tauto.
  - intros target_weekday Hchoice.
    assert (0 <= target_weekday <= 6) as Ht
      by (destruct (choose_target_weekday_cases _ _ Hchoice) as [[_ ->]|[_ ->]]; lia).
    destruct Hv as (Hord & _).
    destruct (next_weekday_value today target_weekday Ht) as [Hd Heq]; [lia|lia|].
    eexists. split; [exact Heq|]. cbn [ordinal]. split; [lia|].
    match goal with |- get_weekday (c_locale_day_name ?x) = _ => set (d := x) end.
    assert (weekday d = target_weekday) as Hwd.
    { unfold d, weekday in *. cbn [ordinal].
      destruct (Z.leb_spec (target_weekday - (ordinal today + 6) mod 7) 0);
        Z.div_mod_to_equations; lia. }
    pose proof (c_locale_day_name_cases d) as Hname.
    destruct (choose_target_weekday_cases _ _ Hchoice) as [[-> ->]|[-> ->]];
      repeat destruct Hname as [Hname|Hname]; destruct Hname as [Hw ->];
      try (rewrite Hwd in Hw; discriminate); reflexivity.
Qed.

(** ** The seed combiner *)

Lemma floor_nonneg (x : float) (c : Z) :
  sign_or_nan false x -> floor x = Some c -> 0 <= c.
Proof.
  destruct x as [s|s| |s m e]; simpl; try discriminate.
  - intros _ [= <-]. lia.
  - intros -> [= <-]. simpl. unfold floor_scaled.
    destruct (Z.leb_spec 0 e).
    + assert (0 < 2 ^ e) by (apply Z.pow_pos_nonneg; lia). nia.
    + apply Z.div_pos; [lia|]. apply Z.pow_pos_nonneg; lia.
Qed.

Section CombinerFacts.

Variable np_sin np_cos : float -> float.
Variable np_power : float -> float -> float.
Variable odeint :
  (list float -> float -> result (list float)) ->
  list float -> list float -> result (list (list float)).
Variable hash : list byte -> Z.
Hypothesis odeint_ok : odeint_contract odeint.

Local Abbreviation chaotic_default :=
  (get_chaotic_value_from_pendulum_default np_sin np_cos np_power odeint).
(** X8.  Two pairs of a time integer and a token get the same seed exactly
    when [hash w1 + t1 = hash w2 + t2]: the seed keeps only the sum of the
    two entropy inputs, so a token whose hash is larger by [d] undoes a time
    integer smaller by [d]. *)
Theorem combined_seed_collisions :
  exists v, chaotic_default = Ok v /\
    forall t1 w1 t2 w2 s1 s2,
      create_combined_seed np_sin np_cos np_power odeint hash t1 w1 = Ok s1 ->
      create_combined_seed np_sin np_cos np_power odeint hash t2 w2 = Ok s2 ->
      (s1 = s2 <-> hash w1 + t1 = hash w2 + t2).
Proof.
  destruct (chaotic_default_value np_sin np_cos np_power odeint odeint_ok)
    as (theta1 & theta2 & v & _ & _ & _ & _ & Hv).
  exists v. split; [exact Hv|]. intros t1 w1 t2 w2 s1 s2 H1 H2.
  destruct (combined_seed_inv _ _ _ _ _ v t1 s1 w1 Hv H1) as (c1 & Hc1 & ->).
  destruct (combined_seed_inv _ _ _ _ _ v t2 s2 w2 Hv H2) as (c2 & Hc2 & ->).
  rewrite Hc1 in Hc2. injection Hc2 as <-. lia.
Qed.

(** X9.  The chaotic term never lowers the seed: a seed returned for [t] and
    [w] is at least [hash w + t], and the excess is the same for every [t]
    and [w]. *)
Theorem combined_seed_lower_bound :
  exists v, chaotic_default = Ok v /\
    forall t w s,
      create_combined_seed np_sin np_cos np_power odeint hash t w = Ok s ->
      hash w + t <= s /\
      forall t' w' s',
        create_combined_seed np_sin np_cos np_power odeint hash t' w' = Ok s' ->
        s' - (hash w' + t') = s - (hash w + t).
Proof.
  destruct (chaotic_default_value np_sin np_cos np_power odeint odeint_ok)
    as (theta1 & theta2 & v & _ & _ & _ & _ & Hv).
  exists v. split; [exact Hv|]. intros t w s H.
  destruct (combined_seed_inv _ _ _ _ _ v t s w Hv H) as (c & Hc & ->).
  split.
  - assert (0 <= c); [|lia]. apply (floor_nonneg (abs v * of_Z 1000000)%F); [|exact Hc].
    apply mul_sign; [destruct v; simpl; auto | apply of_Z_sign; lia].
  - intros t' w' s' H'.
    destruct (combined_seed_inv _ _ _ _ _ v t' s' w' Hv H') as (c' & Hc' & ->).
    rewrite Hc in Hc'. injection Hc' as <-. lia.
Qed.

End CombinerFacts.

(** ** The sampler *)

(** In a strictly ascending list of integers between [lo] and [hi], the
    element of index [i] leaves room for the [i] elements before it and for
    the elements after it. *)
Lemma ascending_bounds (l : list Z) : forall (lo hi : Z) (i : nat) (x : Z),
  StronglySorted Z.lt l -> Forall (fun y => lo <= y <= hi) l ->
  l !! i = Some x ->
  lo + Z.of_nat i <= x <= hi - Z.of_nat (length l - 1 - i).
Proof.
  induction l as [|a l IH]; intros lo hi i x Hs Hb Hi; [discriminate|].
  apply StronglySorted_inv in Hs as [Hs Ha].
  apply Forall_cons in Hb as [Hab Hb].
  assert (Forall (fun y => a + 1 <= y <= hi) l) as Hb'.
  { rewrite Forall_forall in *. intros y Hy.
    specialize (Ha y Hy). specialize (Hb y Hy). lia. }
  destruct i as [|i]; simpl in Hi.
  - injection Hi as ->. split; [lia|]. simpl length.
    destruct l as [|b l]; [simpl; lia|].
    pose proof (IH (x + 1) hi 0%nat b Hs Hb' eq_refl) as Hb0.
    apply Forall_cons in Ha as [Hxb _]. simpl length in *. lia.
  - pose proof (IH (a + 1) hi i x Hs Hb' Hi) as Hx.
    assert (i < length l)%nat by (eapply lookup_lt_Some; eassumption).
    simpl length. lia.
Qed.

Section SamplerFacts.

Context {state : Type}.
Variable seed_int : Z -> state.
Variable randbelow : Z -> state -> Z * state.
Hypothesis randbelow_ok : randbelow_range randbelow.

Lemma generate_wellformed (seed : Z) (st : state) :
  exists numbers st',
    generate_eurodreams_numbers seed_int randbelow seed st = Ok (numbers, st') /\
    wellformed_draw numbers.
Proof.
  destruct (generate_steps seed_int randbelow randbelow_ok seed st)
    as (sample & rest & _ & Hgen & Hlen & Hperm).
  destruct (sample_distinct_in_range sample rest Hperm) as [Hnd Hin].
  pose proof (sorted_Permutation sample) as Hs.
  eexists _, _. split; [exact Hgen|]. unfold wellformed_draw. cbn [fst snd].
  split; [now rewrite Hs|].
  split; [apply StronglySorted_le_lt; [now rewrite Hs|apply sorted_Sorted]|].
  split; [now rewrite Hs|].
  eexists. split; [reflexivity|].
  pose proof (randbelow_ok 5 (snd (randbelow_seq randbelow (sample_bounds 40 6) (seed_int seed)))).
  lia.
Qed.

(** X10.  The main number of rank [i] (from 0) of a draw lies between
    [i + 1] and [35 + i]: the smallest is at most 35 and the largest at
    least 6. *)
Theorem main_number_rank_bounds (seed : Z) (st : state) :
  exists main bonus st',
    generate_eurodreams_numbers seed_int randbelow seed st = Ok ((main, bonus), st') /\
    forall (i : nat) (x : Z), main !! i = Some x -> Z.of_nat i + 1 <= x <= 35 + Z.of_nat i.
Proof.
  destruct (generate_wellformed seed st) as ([main bonus] & st' & Hgen & Hlen & Hs & Hb & _).
  cbn [fst] in *. exists main, bonus, st'. split; [exact Hgen|].
  intros i x Hi. pose proof (ascending_bounds main 1 40 i x Hs Hb Hi) as Hx.
  assert (i < length main)%nat by (eapply lookup_lt_Some; eassumption).
  rewrite Hlen in *. lia.
Qed.

End SamplerFacts.

(** ** The draws of the main program *)

Section MainFacts.

Variable np_sin np_cos : float -> float.
Variable np_power : float -> float -> float.
Variable odeint :
  (list float -> float -> result (list float)) ->
  list float -> list float -> result (list (list float)).
Variable hash : list byte -> Z.
Context {state : Type}.
Variable seed_int : Z -> state.
Variable randbelow : Z -> state -> Z * state.
Hypothesis odeint_ok : odeint_contract odeint.
Hypothesis randbelow_ok : randbelow_range randbelow.

Local Abbreviation chaotic_default :=
  (get_chaotic_value_from_pendulum_default np_sin np_cos np_power odeint).

Lemma trial_loop_value (v : float) (c base : Z) (w : list byte) :
  chaotic_default = Ok v ->
  floor (abs v * of_Z 1000000)%F = Some c ->
  forall todo all_trial_results st,
  exists results st',
    trial_loop np_sin np_cos np_power odeint hash seed_int randbelow
      todo base w all_trial_results st = Ok (all_trial_results ++ results, st') /\
    Forall2 (fun i numbers => forall st0 : state, exists st1,
               generate_eurodreams_numbers seed_int randbelow (hash w + (base + i) + c) st0
                 = Ok (numbers, st1)) todo results /\
    Forall wellformed_draw results.
Proof.
  intros Hv Hc. induction todo as [|i todo IH]; intros acc st.
  - exists [], st. simpl. rewrite app_nil_r. auto.
  - cbn [trial_loop].
    rewrite (combined_seed_value _ _ _ _ hash v c (base + i) w Hv Hc).
    cbn [mbind result_bind].
    destruct (generate_wellformed seed_int randbelow randbelow_ok
                (hash w + (base + i) + c) st) as (numbers & st1 & Hgen & Hwf).
    rewrite Hgen. cbn [mbind result_bind].
    destruct (IH (acc ++ [numbers]) st1) as (results & st' & Hloop & Hdraws & Hwfs).
    exists (numbers :: results), st'. split; [|split].
    + rewrite Hloop, <- app_assoc. reflexivity.
    + constructor; [|exact Hdraws]. intros st0. exists st1. exact Hgen.
    + constructor; assumption.
Qed.

(** X11.  When the chaotic term is defined the main program makes its 48
    draws: 47 trial results and the official one, each of six ascending
    distinct numbers in [[1, 40]] and a bonus in [[1, 5]]. *)
Theorem main_draws_complete :
  exists v, chaotic_default = Ok v /\
    forall c, floor (abs v * of_Z 1000000)%F = Some c ->
    forall base w st, exists trials official st',
      main_draws np_sin np_cos np_power odeint hash seed_int randbelow base w st
        = Ok ((trials, official), st') /\
      length trials = 47%nat /\
      Forall wellformed_draw trials /\
      wellformed_draw official.
Proof.
  destruct (chaotic_default_value np_sin np_cos np_power odeint odeint_ok)
    as (theta1 & theta2 & v & _ & _ & _ & _ & Hv).
  exists v. split; [exact Hv|]. intros c Hc base w st.
  destruct (trial_loop_value v c base w Hv Hc (py_range 0 47) [] st)
    as (trials & st1 & Hloop & Hdraws & Hwfs).
  destruct (generate_wellformed seed_int randbelow randbelow_ok
              (hash w + (base + 47) + c) st1) as (official & st' & Hgen & Hwf).
  exists trials, official, st'. split; [|split; [|split; assumption]].
  - unfold main_draws. rewrite Hloop. cbn [mbind result_bind app].
    rewrite (combined_seed_value _ _ _ _ hash v c (base + 47) w Hv Hc).
    cbn [mbind result_bind]. rewrite Hgen. reflexivity.
  - apply Forall2_length in Hdraws. rewrite <- Hdraws, py_range_length. reflexivity.
Qed.

(** X12.  Every draw of the main program depends on its own seed only: the
    trial result of rank [i] is the draw for the seed
    [hash w + (base + i) + c] made from any state of the generator, and the
    official result is the draw for [hash w + (base + 47) + c]; the 47 trial
    draws and the state in which the program finds the generator leave the
    official draw unchanged. *)
Theorem main_draws_independent :
  exists v, chaotic_default = Ok v /\
    forall c, floor (abs v * of_Z 1000000)%F = Some c ->
    forall base w st trials official st',
      main_draws np_sin np_cos np_power odeint hash seed_int randbelow base w st
        = Ok ((trials, official), st') ->
      (forall (i : nat) numbers,
         trials !! i = Some numbers ->
         forall st0, exists st1,
           generate_eurodreams_numbers seed_int randbelow
             (hash w + (base + Z.of_nat i) + c) st0 = Ok (numbers, st1)) /\
      (forall st0,
         generate_eurodreams_numbers seed_int randbelow (hash w + (base + 47) + c) st0
           = Ok (official, st')).
Proof.
  destruct (chaotic_default_value np_sin np_cos np_power odeint odeint_ok)
    as (theta1 & theta2 & v & _ & _ & _ & _ & Hv).
  exists v. split; [exact Hv|]. intros c Hc base w st trials official st' Hmain.
  destruct (trial_loop_value v c base w Hv Hc (py_range 0 47) [] st)
    as (trials0 & st1 & Hloop & Hdraws & _).
  unfold main_draws in Hmain. rewrite Hloop in Hmain.
  cbn [mbind result_bind app] in Hmain.
  rewrite (combined_seed_value _ _ _ _ hash v c (base + 47) w Hv Hc) in Hmain.
  cbn [mbind result_bind] in Hmain.
  destruct (generate_wellformed seed_int randbelow randbelow_ok
              (hash w + (base + 47) + c) st1) as (official0 & st2 & Hgen & _).
  rewrite Hgen in Hmain. cbn [mbind result_bind] in Hmain.
  injection Hmain as <- <- <-. split.
  - intros i numbers Hi.
    destruct (Forall2_lookup_r _ _ _ _ _ Hdraws Hi) as (k & Hk & Hdraw).
    unfold py_range in Hk. rewrite list_lookup_fmap in Hk.
    destruct (seq 0 (Z.to_nat (47 - 0)) !! i) as [j|] eqn:Hj; [|discriminate].
    apply lookup_seq in Hj as [-> _]. injection Hk as <-.
    replace (base + Z.of_nat i) with (base + (0 + Z.of_nat (0 + i))) by lia.
    exact Hdraw.
  - intros st0. exact Hgen.
Qed.

End MainFacts.

(** ** A duration that is not positive *)

(** The length that [arange] computes from a quotient that is not positive
    is not positive. *)
Lemma arange_length_of_negative (value : float) (next_nonzero : bool) (n : Z) :
  sign_or_nan true value ->
  (if is_zero value && next_nonzero
   then Ok (if signbit value then 0 else 1)
   else arange_safe_ceil_to_intp value) = Ok n ->
  n <= 0.
Proof.
  destruct value as [s|s| |s m e]; simpl sign_or_nan; intros Hs; subst.
  - change (is_zero (S754_zero true)) with true. destruct next_nonzero; simpl.
    + intros [= <-]. lia.
    + intros [= <-]. vm_compute. discriminate.
  - change (is_zero (S754_infinity true)) with false. simpl. discriminate.
  - change (is_zero S754_nan) with false. simpl. discriminate.
  - change (is_zero (S754_finite true m e)) with false. simpl andb. cbv iota.
    unfold arange_safe_ceil_to_intp, ceil, signed_mantissa.
    destruct (andb _ _); [|discriminate]. intros [= <-].
    change (- Z.neg m) with (Z.pos m).
    assert (0 <= floor_scaled (Z.pos m) e)
      by (apply (floor_nonneg (S754_finite false m e)); reflexivity).
    unfold double_to_intp, NPY_MIN_INTP.
    destruct (- floor_scaled (Z.pos m) e <=? NPY_MAX_INTP); lia.
Qed.

Lemma div_sign_negative (x y : float) :
  (ltb x zero = true /\ gt_zero y) \/ (gt_zero x /\ ltb y zero = true) ->
  sign_or_nan true (x / y)%F.
Proof.
  intros [[Hx Hy]|[Hx Hy]].
  - destruct (gt_zero_cases y Hy) as [(my & ey & ->)| ->];
      destruct x as [sx|[|]| |[|] mx ex]; try discriminate; try reflexivity.
    unfold div, SFdiv. destruct (SFdiv_core_binary _ _ _ _ _ _) as [[mz ez] lz].
    apply binary_round_aux_sign.
  - destruct (gt_zero_cases x Hx) as [(mx & ex & ->)| ->];
      destruct y as [sy|[|]| |[|] my ey]; try discriminate; try reflexivity.
    unfold div, SFdiv. destruct (SFdiv_core_binary _ _ _ _ _ _) as [[mz ez] lz].
    apply binary_round_aux_sign.
Qed.

(** A grid that [arange] returns for a duration that is zero or negative and
    a positive step, or for a positive duration and a negative step, is
    empty. *)
Lemma np_arange_backwards (tmax dt : float) (t : list float) :
  (leb tmax zero = true /\ gt_zero dt) \/ (gt_zero tmax /\ ltb dt zero = true) ->
  np_arange zero tmax dt = Ok t -> t = [].
Proof.
  intros Hsigns. unfold np_arange.
  destruct (arange_calc_length zero tmax dt) as [n|e] eqn:Hn; [|discriminate].
  assert (n <= 0) as Hle.
  { revert Hn. unfold arange_calc_length. rewrite sub_zero_r.
    assert (is_zero dt = false) as ->.
    { destruct Hsigns as [[_ Hd]|[_ Hd]]; [now apply gt_zero_not_zero|].
      destruct dt as [s|[|]| |[|] m e]; try discriminate; reflexivity. }
    destruct (is_zero tmax) eqn:Hz.
    - assert (exists s, tmax = S754_zero s) as [s ->].
      { destruct tmax as [s|[|]| |[|] m e]; try discriminate; eauto. }
      assert (exists s', (S754_zero s / dt)%F = S754_zero s') as [s' ->].
      { destruct Hsigns as [[_ Hd]|[Ht _]]; [|discriminate].
        destruct (gt_zero_cases dt Hd) as [(m & e & ->)| ->]; simpl; eauto. }
      change (is_zero (S754_zero s')) with true. simpl.
      intros [= <-]. destruct s'; vm_compute; discriminate.
    - apply arange_length_of_negative, div_sign_negative.
      destruct Hsigns as [[Ht Hd]|[Ht Hd]]; [left|right; auto].
      split; [|exact Hd].
      destruct tmax as [s|[|]| |[|] m e]; try discriminate; reflexivity. }
  destruct (Z.leb_spec n 0); [|lia]. intros [= <-]. reflexivity.
Qed.

Section BackwardsFacts.

Variable np_sin np_cos : float -> float.
Variable np_power : float -> float -> float.
Variable odeint :
  (list float -> float -> result (list float)) ->
  list float -> list float -> result (list (list float)).
Hypothesis odeint_ok : odeint_shape odeint.

(** X13.  With a duration that is zero or negative (and a positive step), or
    with a negative step (and a positive duration), the time grid is empty:
    a trajectory that the integrator returns has no sample, and the extractor
    returns no value: it raises, [IndexError] when the integrator returned. *)
Theorem backwards_grid_no_value (L1 L2 m1 m2 tmax dt : float) (y0 : list float) :
  (leb tmax zero = true /\ gt_zero dt) \/ (gt_zero tmax /\ ltb dt zero = true) ->
  (forall theta1 theta2,
     simulate_double_pendulum np_sin np_cos np_power odeint L1 L2 m1 m2 tmax dt y0
       = Ok (theta1, theta2) ->
     theta1 = [] /\ theta2 = [] /\
     get_chaotic_value_from_pendulum np_sin np_cos np_power odeint L1 L2 m1 m2 tmax dt y0
       = Raise IndexError) /\
  (forall v,
     get_chaotic_value_from_pendulum np_sin np_cos np_power odeint L1 L2 m1 m2 tmax dt y0
       <> Ok v).
Proof.
  intros Hsigns.
  assert (Hret : forall theta1 theta2,
     simulate_double_pendulum np_sin np_cos np_power odeint L1 L2 m1 m2 tmax dt y0
       = Ok (theta1, theta2) ->
     theta1 = [] /\ theta2 = [] /\
     get_chaotic_value_from_pendulum np_sin np_cos np_power odeint L1 L2 m1 m2 tmax dt y0
       = Raise IndexError).
  { intros theta1 theta2 Hsim.
    destruct (simulate_inv np_sin np_cos np_power odeint _ _ _ _ _ _ _ _ _ Hsim)
      as (t & sol & Hgrid & Hsol & H1 & H2).
    apply (np_arange_backwards tmax dt t Hsigns) in Hgrid. subst t.
    destruct (odeint_ok _ _ _ _ Hsol) as [Hlen _].
    destruct sol; [|discriminate]. simpl in H1, H2.
    injection H1 as <-. injection H2 as <-.
    split; [reflexivity|]. split; [reflexivity|].
    unfold get_chaotic_value_from_pendulum. rewrite Hsim. apply py_getitem_empty. }
  split; [exact Hret|]. intros v Hv.
  destruct (simulate_double_pendulum np_sin np_cos np_power odeint L1 L2 m1 m2 tmax dt y0)
    as [[theta1 theta2]|e] eqn:Hsim.
  - destruct (Hret _ _ eq_refl) as (_ & _ & Hraise). congruence.
  - unfold get_chaotic_value_from_pendulum in Hv. rewrite Hsim in Hv. discriminate.
Qed.

End BackwardsFacts.

(** ** The further properties on concrete inputs *)

(** Monday 1 January 2024, 10:15, and the Thursday that follows. *)
Lemma next_weekday_on_target_witness :
  let today := {| ordinal := 738886; hour := 10; minute := 15; second := 0;
                  microsecond := 0 |} in
  exists d,
    next_weekday today 3 = Ok d /\
    weekday d = 3 /\
    1 <= ordinal d - ordinal today <= 7 /\
    (hour d, minute d, second d, microsecond d) = (20, 30, 0, 0) /\
    valid_datetime d /\
    datetime_lt today d.
Proof.
  apply (next_weekday_on_target
           {| ordinal := 738886; hour := 10; minute := 15; second := 0; microsecond := 0 |} 3);
    [lia | unfold valid_datetime, MAXORDINAL; cbn; lia | unfold MAXORDINAL; cbn; lia].
Defined.

(** Tuesday 2 and Wednesday 3 January 2024 are passed over. *)
Lemma next_weekday_earliest_witness :
  weekday {| ordinal := 738887; hour := 0; minute := 0; second := 0; microsecond := 0 |} <> 3 /\
  weekday {| ordinal := 738888; hour := 0; minute := 0; second := 0; microsecond := 0 |} <> 3.
Proof.
  split;
    apply (next_weekday_earliest
             {| ordinal := 738886; hour := 10; minute := 15; second := 0; microsecond := 0 |}
             {| ordinal := 738889; hour := 20; minute := 30; second := 0; microsecond := 0 |} 3);
    solve [lia | cbn; lia | unfold MAXORDINAL; cbn; lia | reflexivity].
Defined.

(** On a Monday morning the next Monday draw is a week away. *)
Lemma next_weekday_skips_today_witness :
  738893 <> 738886 /\
  (738893 = 738886 + 7 <->
   weekday {| ordinal := 738886; hour := 10; minute := 15; second := 0; microsecond := 0 |} = 0).
Proof.
  apply (next_weekday_skips_today
           {| ordinal := 738886; hour := 10; minute := 15; second := 0; microsecond := 0 |}
           {| ordinal := 738893; hour := 20; minute := 30; second := 0; microsecond := 0 |} 0);
    [lia | cbn; lia | unfold MAXORDINAL; cbn; lia | reflexivity].
Defined.

(** Friday 31 December 9999: no Monday follows. *)
Lemma next_weekday_overflow_witness :
  let today := {| ordinal := 3652059; hour := 23; minute := 0; second := 0;
                  microsecond := 0 |} in
  (MAXORDINAL < ordinal today + ((0 - weekday today - 1) mod 7 + 1) ->
   next_weekday today 0 = Raise OverflowError) /\
  (forall e, next_weekday today 0 = Raise e ->
     e = OverflowError /\
     MAXORDINAL < ordinal today + ((0 - weekday today - 1) mod 7 + 1)).
Proof.
  apply (next_weekday_overflow
           {| ordinal := 3652059; hour := 23; minute := 0; second := 0; microsecond := 0 |} 0);
    [lia | unfold valid_datetime, MAXORDINAL; cbn; lia].
Defined.

Example next_weekday_last_day :
  next_weekday {| ordinal := 3652059; hour := 23; minute := 0; second := 0;
                  microsecond := 0 |} 0 = Raise OverflowError.
Proof. reflexivity. Qed.

(** In a French locale the name of the day is not in the dictionary. *)
Example get_weekday_french_locale :
  get_weekday "lundi" = "Inconnu"%string /\ get_weekday "Monday" = "Lun"%string.
Proof. vm_compute. auto. Qed.

Lemma next_draw_on_chosen_day_witness :
  let today := {| ordinal := 738886; hour := 10; minute := 15; second := 0;
                  microsecond := 0 |} in
  (choose_target_weekday "jeudi" = None <->
   "jeudi"%string <> "lundi"%string /\ "jeudi"%string <> "jeudi"%string) /\
  (forall target_weekday,
     choose_target_weekday "jeudi" = Some target_weekday ->
     exists d,
       next_weekday today target_weekday = Ok d /\
       1 <= ordinal d - ordinal today <= 7 /\
       get_weekday (c_locale_day_name d)
         = (if decide ("jeudi"%string = "lundi"%string) then "Lun" else "Jeu")%string).
Proof.
  apply (next_draw_on_chosen_day "jeudi"
           {| ordinal := 738886; hour := 10; minute := 15; second := 0; microsecond := 0 |});
    [unfold valid_datetime, MAXORDINAL; cbn; lia | unfold MAXORDINAL; cbn; lia].
Defined.

Lemma combined_seed_collisions_witness :
  exists v, Reference.chaotic_value = Ok v /\
    forall t1 w1 t2 w2 s1 s2,
      Reference.combined_seed t1 w1 = Ok s1 ->
      Reference.combined_seed t2 w2 = Ok s2 ->
      (s1 = s2 <-> Reference.fnv1a w1 + t1 = Reference.fnv1a w2 + t2).
Proof.
  exact (combined_seed_collisions Reference.poly_sin Reference.poly_cos
           Reference.square_power Reference.euler_odeint Reference.fnv1a
           euler_odeint_contract).
Defined.

Lemma combined_seed_lower_bound_witness :
  exists v, Reference.chaotic_value = Ok v /\
    forall t w s,
      Reference.combined_seed t w = Ok s ->
      Reference.fnv1a w + t <= s /\
      forall t' w' s',
        Reference.combined_seed t' w' = Ok s' ->
        s' - (Reference.fnv1a w' + t') = s - (Reference.fnv1a w + t).
Proof.
  exact (combined_seed_lower_bound Reference.poly_sin Reference.poly_cos
           Reference.square_power Reference.euler_odeint Reference.fnv1a
           euler_odeint_contract).
Defined.

Lemma main_number_rank_bounds_witness :
  exists main bonus st',
    Reference.draw 20240101 0 = Ok ((main, bonus), st') /\
    forall (i : nat) (x : Z), main !! i = Some x -> Z.of_nat i + 1 <= x <= 35 + Z.of_nat i.
Proof.
  exact (main_number_rank_bounds Reference.lcg_seed Reference.lcg_randbelow
           lcg_randbelow_range 20240101 0).
Defined.

Lemma main_draws_complete_witness :
  exists v, Reference.chaotic_value = Ok v /\
    forall c, floor (abs v * of_Z 1000000)%F = Some c ->
    forall base w st, exists trials official st',
      reference_main base w st = Ok ((trials, official), st') /\
      length trials = 47%nat /\
      Forall wellformed_draw trials /\
      wellformed_draw official.
Proof.
  exact (main_draws_complete Reference.poly_sin Reference.poly_cos
           Reference.square_power Reference.euler_odeint Reference.fnv1a
           Reference.lcg_seed Reference.lcg_randbelow
           euler_odeint_contract lcg_randbelow_range).
Defined.

Lemma main_draws_independent_witness :
  exists v, Reference.chaotic_value = Ok v /\
    forall c, floor (abs v * of_Z 1000000)%F = Some c ->
    forall base w st trials official st',
      reference_main base w st = Ok ((trials, official), st') ->
      (forall (i : nat) numbers,
         trials !! i = Some numbers ->
         forall st0, exists st1,
           Reference.draw (Reference.fnv1a w + (base + Z.of_nat i) + c) st0
             = Ok (numbers, st1)) /\
      (forall st0,
         Reference.draw (Reference.fnv1a w + (base + 47) + c) st0 = Ok (official, st')).
Proof.
  exact (main_draws_independent Reference.poly_sin Reference.poly_cos
           Reference.square_power Reference.euler_odeint Reference.fnv1a
           Reference.lcg_seed Reference.lcg_randbelow
           euler_odeint_contract lcg_randbelow_range).
Defined.

(** A duration of [-1] with the step [0.25]. *)
Lemma backwards_grid_no_value_witness :
  (forall theta1 theta2,
     Reference.simulate (of_Z 1) (of_Z 1) (of_Z 1) (of_Z 1) (of_Z (-1)) (decimal 1 4)
       default_y0 = Ok (theta1, theta2) ->
     theta1 = [] /\ theta2 = [] /\
     Reference.chaotic (of_Z 1) (of_Z 1) (of_Z 1) (of_Z 1) (of_Z (-1)) (decimal 1 4)
       default_y0 = Raise IndexError) /\
  (forall v,
     Reference.chaotic (of_Z 1) (of_Z 1) (of_Z 1) (of_Z 1) (of_Z (-1)) (decimal 1 4)
       default_y0 <> Ok v).
Proof.
  apply (backwards_grid_no_value Reference.poly_sin Reference.poly_cos
           Reference.square_power Reference.euler_odeint (proj1 euler_odeint_contract)
           (of_Z 1) (of_Z 1) (of_Z 1) (of_Z 1) (of_Z (-1)) (decimal 1 4) default_y0).
  left. split; vm_compute; reflexivity.
Defined.

Example empty_grid_examples :
  np_arange zero (of_Z (-1)) (decimal 1 4) = Ok [] /\
  np_arange zero zero (decimal 1 4) = Ok [] /\
  np_arange zero (of_Z 1) (of_Z (-1)) = Ok [] /\
  Reference.simulate (of_Z 1) (of_Z 1) (of_Z 1) (of_Z 1) (of_Z (-1)) (decimal 1 4)
    default_y0 = Ok ([], []) /\
  Reference.chaotic (of_Z 1) (of_Z 1) (of_Z 1) (of_Z 1) (of_Z (-1)) (decimal 1 4)
    default_y0 = Raise IndexError.
Proof. vm_compute. repeat split. Qed.
